(** * EMV merchant QR payload generator (BankQrCodeStringGenerator.js)

    A shallow embedding of the class [QRGeneration] and the properties of
    its payload: TLV framing, the CRC16 trailer, field order and error
    propagation. *)

From Stdlib Require Import String Ascii ZArith List Bool Lia.
Import ListNotations.
Local Open Scope Z_scope.

(** ** The JavaScript runtime the class relies on *)

Module JS.

(** A JavaScript string is a sequence of UTF-16 code units; [length]
    counts code units. *)
Definition jsstring := list Z.

(** String literals of the source, written as Rocq strings. *)
Definition str (s : string) : jsstring :=
  map (fun a => Z.of_N (N_of_ascii a)) (list_ascii_of_string s).

Fixpoint string_eqb (a b : jsstring) : bool :=
  match a, b with
  | [], [] => true
  | x :: a', y :: b' => (x =? y) && string_eqb a' b'
  | _, _ => false
  end.

(** Values the constructor can receive: the documented parameter types
    (String, Boolean) and [undefined] for an argument left out. *)
Inductive jsval :=
| Undefined
| Bool (b : bool)
| Str (s : jsstring).

(** Strict equality [===]. *)
Definition strictEq (a b : jsval) : bool :=
  match a, b with
  | Undefined, Undefined => true
  | Bool x, Bool y => Bool.eqb x y
  | Str x, Str y => string_eqb x y
  | _, _ => false
  end.

(** ToBoolean, as used by [?:], [&&] and [||]. *)
Definition truthy (v : jsval) : bool :=
  match v with
  | Undefined => false
  | Bool b => b
  | Str s => negb (string_eqb s [])
  end.

(** ToString, as applied by [+] to a non-string operand. *)
Definition toStr (v : jsval) : jsstring :=
  match v with
  | Undefined => str "undefined"
  | Bool true => str "true"
  | Bool false => str "false"
  | Str s => s
  end.

(** Exceptions.  [Error msg] is [new Error(msg)]; [TypeError] is what the
    runtime raises for a property access on [undefined] or a call of a
    method the receiver does not have. *)
Inductive exn :=
| Error (message : jsstring)
| TypeError.

Inductive result (A : Type) :=
| Ok (a : A)
| Throw (e : exn).
Arguments Ok {A} a.
Arguments Throw {A} e.

Definition bind {A B} (r : result A) (k : A -> result B) : result B :=
  match r with
  | Ok a => k a
  | Throw e => Throw e
  end.

(** The method call [v.toString()]. *)
Definition toStringMethod (v : jsval) : result jsstring :=
  match v with
  | Undefined => Throw TypeError
  | _ => Ok (toStr v)
  end.

(** *** Numbers

    Integer-valued numbers are modelled by [Z].  The bitwise operators
    work on the 32-bit two's complement image of their operands. *)

Definition toInt32 (z : Z) : Z := (z + 2 ^ 31) mod 2 ^ 32 - 2 ^ 31.

Definition bitAnd (a b : Z) : Z := Z.land (toInt32 a) (toInt32 b).
Definition bitXor (a b : Z) : Z := Z.lxor (toInt32 a) (toInt32 b).
Definition shl (a k : Z) : Z := toInt32 (Z.shiftl (toInt32 a) (Z.land k 31)).

Definition truthyNum (n : Z) : bool := negb (n =? 0).

(** Digit characters of [Number.prototype.toString(radix)]:
    [0-9] then [a-z]. *)
Definition digitChar (d : Z) : Z := if d <? 10 then 48 + d else 87 + d.

Fixpoint digitsFuel (radix : Z) (fuel : nat) (n : Z) : jsstring :=
  match fuel with
  | O => []
  | S f =>
      if n <? radix then [digitChar n]
      else digitsFuel radix f (n / radix) ++ [digitChar (n mod radix)]
  end.

(** [n.toString(radix)] for an integer [n]; the fuel is the bit length of
    [|n|], which bounds its number of digits in any radix >= 2. *)
Definition numToString (n radix : Z) : jsstring :=
  let digits m := digitsFuel radix (S (Z.to_nat (Z.log2 m))) m in
  if n <? 0 then 45 :: digits (- n) else digits n.

(** *** Strings *)

(** [s.padStart(targetLength, padString)]. *)
Definition padStart (s : jsstring) (targetLength : Z) (padString : jsstring)
  : jsstring :=
  let len := Z.of_nat (length s) in
  if (targetLength <=? len) || string_eqb padString [] then s
  else
    let fillLen := Z.to_nat (targetLength - len) in
    firstn fillLen (concat (repeat padString fillLen)) ++ s.

(** [s.toUpperCase()] on the ASCII range: [a-z] are mapped to [A-Z] and
    every other code unit is kept.  This is exact on ASCII strings only:
    [String.prototype.toUpperCase] also maps letters outside ASCII (U+0131
    to "I", U+017F to "S", U+00DF to "SS"), which this definition keeps.
    The hexadecimal digits upper-cased in [#calculateCRC16] are ASCII; a
    statement about the constructor's [initType] holds of the code for
    ASCII arguments. *)
Definition upperUnit (c : Z) : Z :=
  if (97 <=? c) && (c <=? 122) then c - 32 else c.
Definition toUpperCase (s : jsstring) : jsstring := map upperUnit s.

(** [s.charCodeAt(i)]; an index past the end gives NaN, which the bitwise
    operators read as 0. *)
Definition charCodeAt (s : jsstring) (i : nat) : Z := nth i s 0.

Definition isHighSurrogate (c : Z) : bool := (0xD800 <=? c) && (c <=? 0xDBFF).
Definition isLowSurrogate (c : Z) : bool := (0xDC00 <=? c) && (c <=? 0xDFFF).

(** The string iterator behind [for (const char of data)]: it yields one
    string per code point, so a surrogate pair comes out as one
    two-unit string. *)
Fixpoint stringIterator (s : jsstring) : list jsstring :=
  match s with
  | [] => []
  | c :: t =>
      match t with
      | d :: t' =>
          if isHighSurrogate c && isLowSurrogate d
          then [c; d] :: stringIterator t'
          else [c] :: stringIterator t
      | [] => [[c]]
      end
  end.

End JS.
Import JS.

Notation "x <- e ;; k" := (bind e (fun x => k))
  (at level 61, e at next level, right associativity).

(** ** The class [QRGeneration] *)

(** The private table [#CONSTANTS]. *)
Module CONSTANTS.
Definition PAYLOAD_FORMAT := str "000201".
Definition PIM_STATIC := str "010211".
Definition PIM_DYNAMIC := str "010212".
Definition CURRENCY := str "5303704".
Definition COUNTRY := str "5802VN".
Definition CRC_ID := str "6304".
Definition ACQUIRER_ID := str "0006".
Definition MERCHANT_ID := str "01".
Definition BENEFICIARY_ORG_ID := str "01".
Definition DVCNTT_ID := str "38".
Definition AMOUNT_ID := str "54".
Definition ADDITIONAL_DATA_ID := str "62".
Definition BILL_NUMBER_ID := str "01".
Definition PURPOSE_ID := str "08".
Definition GUID := str "0010A000000727".
Definition SERVICE_ACCOUNT := str "0208QRIBFTTA".
Definition SERVICE_CARD := str "0208QRIBFTTC".
Definition BILL_PREFIX := str "NAPAS".
End CONSTANTS.

(** The fields of an instance. *)
Record QRGeneration := mkQRGeneration {
  bankBin : jsval;
  accNo : jsval;
  initType : jsval;
  isAccount : jsval;
  amount : jsval;
  desc : jsval;
  billNumber : jsstring
}.

(** [#generateBillNumber]; [randomInt] is the random source of the
    [crypto] module, whose contract is [0 <= randomInt max < max]. *)
Definition generateBillNumber (randomInt : Z -> Z) : jsstring :=
  CONSTANTS.BILL_PREFIX ++ padStart (numToString (randomInt 10000) 10) 4 (str "0").

(** [initType?.toUpperCase()]. *)
Definition optionalToUpperCase (v : jsval) : result jsval :=
  match v with
  | Undefined => Ok Undefined
  | Str s => Ok (Str (toUpperCase s))
  | Bool _ => Throw TypeError
  end.

(** The constructor: [initType?.toUpperCase() || "STATIC"] and one draw of
    the random source for the bill number. *)
Definition constructor (randomInt : Z -> Z)
  (bankBin accNo initType isAccount amount desc : jsval) : result QRGeneration :=
  upper <- optionalToUpperCase initType ;;
  Ok {| bankBin := bankBin;
        accNo := accNo;
        initType := if truthy upper then upper else Str (str "STATIC");
        isAccount := isAccount;
        amount := amount;
        desc := desc;
        billNumber := generateBillNumber randomInt |}.

(** The error thrown by [#formatLength], under the name the specification
    gives it. *)
Definition LengthOutOfRange (length : Z) : exn :=
  Error (str "Data length " ++ numToString length 10 ++ str " out of range (1-99)").

(** [#formatLength]: the length of [data.toString()] as two digits, or the
    error when it is not within 1-99. *)
Definition formatLength (data : jsval) : result jsstring :=
  s <- toStringMethod data ;;
  let length := Z.of_nat (List.length s) in
  if (length <? 1) || (99 <? length) then Throw (LengthOutOfRange length)
  else Ok (padStart (numToString length 10) 2 (str "0")).

(** [#buildTLV]: [id + this.#formatLength(value) + value]. *)
Definition buildTLV (id : jsstring) (value : jsval) : result jsstring :=
  len <- formatLength value ;;
  Ok (id ++ len ++ toStr value).

Definition polynomial : Z := 0x1021.

(** One turn of the inner loop of [#calculateCRC16]. *)
Definition crcShift (crc : Z) : Z :=
  let crc :=
    if truthyNum (bitAnd crc 0x8000)
    then bitXor (shl crc 1) polynomial
    else shl crc 1 in
  bitAnd crc 0xFFFF.

(** One turn of the outer loop. *)
Definition crcChar (crc : Z) (char : jsstring) : Z :=
  let crc := bitXor crc (shl (charCodeAt char 0) 8) in
  Nat.iter 8 crcShift crc.

(** The register after the loop over the characters of [data]. *)
Definition crcLoop (data : jsstring) : Z :=
  fold_left crcChar (stringIterator data) 0xFFFF.

(** [#calculateCRC16]:
    [crc.toString(16).toUpperCase().padStart(4, '0')]. *)
Definition calculateCRC16 (data : jsstring) : jsstring :=
  padStart (toUpperCase (numToString (crcLoop data) 16)) 4 (str "0").

(** The methods that read the fields of [this]. *)
Section Methods.

Variable this : QRGeneration.

Definition getPointOfInitiation : jsstring :=
  if strictEq (initType this) (Str (str "STATIC"))
  then CONSTANTS.PIM_STATIC
  else CONSTANTS.PIM_DYNAMIC.

Definition getMerchantInfo : result jsstring :=
  let acquirerData := CONSTANTS.ACQUIRER_ID ++ toStr (bankBin this) in
  merchantData <- buildTLV CONSTANTS.MERCHANT_ID (accNo this) ;;
  Ok (acquirerData ++ merchantData).

Definition getServiceType : jsstring :=
  if truthy (isAccount this)
  then CONSTANTS.SERVICE_ACCOUNT
  else CONSTANTS.SERVICE_CARD.

Definition getMerchantAccountInfo : result jsstring :=
  merchantInfo <- getMerchantInfo ;;
  len <- formatLength (Str merchantInfo) ;;
  let fullData :=
    CONSTANTS.GUID ++ CONSTANTS.BENEFICIARY_ORG_ID ++ len ++ merchantInfo
    ++ getServiceType in
  buildTLV CONSTANTS.DVCNTT_ID (Str fullData).

Definition getTransactionAmount : result jsstring :=
  if strictEq (initType this) (Str (str "DYNAMIC")) && truthy (amount this)
  then buildTLV CONSTANTS.AMOUNT_ID (amount this)
  else Ok [].

Definition getAdditionalData : result jsstring :=
  if negb (strictEq (initType this) (Str (str "DYNAMIC"))) then Ok []
  else
    billData <- buildTLV CONSTANTS.BILL_NUMBER_ID (Str (billNumber this)) ;;
    purposeData <- buildTLV CONSTANTS.PURPOSE_ID (desc this) ;;
    buildTLV CONSTANTS.ADDITIONAL_DATA_ID (Str (billData ++ purposeData)).

(** [generateQR]; the operands of [+] are evaluated left to right. *)
Definition generateQR : result jsstring :=
  let pointOfInitiation := getPointOfInitiation in
  merchantAccountInfo <- getMerchantAccountInfo ;;
  transactionAmount <- getTransactionAmount ;;
  additionalData <- getAdditionalData ;;
  let qrData :=
    CONSTANTS.PAYLOAD_FORMAT ++ pointOfInitiation ++ merchantAccountInfo
    ++ CONSTANTS.CURRENCY ++ transactionAmount ++ CONSTANTS.COUNTRY
    ++ additionalData ++ CONSTANTS.CRC_ID in
  let crc := calculateCRC16 qrData in
  Ok (qrData ++ crc).

End Methods.

(** The object literal returned by [getComponents]. *)
Module Components.
Record t := mk {
  payloadFormat : jsstring;
  pointOfInitiation : jsstring;
  merchantAccount : jsstring;
  currency : jsstring;
  amount : jsstring;
  country : jsstring;
  additionalData : jsstring;
  billNumber : jsstring
}.
End Components.

(** [getComponents]; the fields of the object literal are evaluated in
    the order they are written. *)
Definition getComponents (this : QRGeneration) : result Components.t :=
  let pointOfInitiation := getPointOfInitiation this in
  merchantAccount <- getMerchantAccountInfo this ;;
  amount <- getTransactionAmount this ;;
  additionalData <- getAdditionalData this ;;
  Ok {| Components.payloadFormat := CONSTANTS.PAYLOAD_FORMAT;
        Components.pointOfInitiation := pointOfInitiation;
        Components.merchantAccount := merchantAccount;
        Components.currency := CONSTANTS.CURRENCY;
        Components.amount := amount;
        Components.country := CONSTANTS.COUNTRY;
        Components.additionalData := additionalData;
        Components.billNumber := billNumber this |}.

(** ** Sample instances

    A random source that draws [n], and the instances the constructor
    builds with it from a few argument lists. *)

Definition drawn (n : Z) : Z -> Z := fun _ => n.

(** [new QRGeneration("970407", "2543663452")], the usage example of the
    source file. *)
Definition exampleStatic : QRGeneration :=
  {| bankBin := Str (str "970407");
     accNo := Str (str "2543663452");
     initType := Str (str "STATIC");
     isAccount := Undefined;
     amount := Undefined;
     desc := Undefined;
     billNumber := str "NAPAS0042" |}.

(** [new QRGeneration("970407", "2543663452", "dynamic", true, "50000",
    "Thanh toan")]. *)
Definition exampleDynamic : QRGeneration :=
  {| bankBin := Str (str "970407");
     accNo := Str (str "2543663452");
     initType := Str (str "DYNAMIC");
     isAccount := Bool true;
     amount := Str (str "50000");
     desc := Str (str "Thanh toan");
     billNumber := str "NAPAS0042" |}.

(** The same with the amount ["0"]. *)
Definition exampleZeroAmount : QRGeneration :=
  {| bankBin := Str (str "970407");
     accNo := Str (str "2543663452");
     initType := Str (str "DYNAMIC");
     isAccount := Bool true;
     amount := Str (str "0");
     desc := Str (str "Thanh toan");
     billNumber := str "NAPAS0042" |}.

(** The same with the empty description. *)
Definition exampleEmptyDesc : QRGeneration :=
  {| bankBin := Str (str "970407");
     accNo := Str (str "2543663452");
     initType := Str (str "DYNAMIC");
     isAccount := Bool true;
     amount := Str (str "50000");
     desc := Str [];
     billNumber := str "NAPAS0042" |}.

(** The same with the initiation type ["dynamicc"]. *)
Definition exampleHybrid : QRGeneration :=
  {| bankBin := Str (str "970407");
     accNo := Str (str "2543663452");
     initType := Str (str "DYNAMICC");
     isAccount := Bool true;
     amount := Str (str "50000");
     desc := Str (str "Thanh toan");
     billNumber := str "NAPAS0042" |}.

(** [new QRGeneration("970407", "")]: an empty account number. *)
Definition exampleEmptyAccount : QRGeneration :=
  {| bankBin := Str (str "970407");
     accNo := Str [];
     initType := Str (str "STATIC");
     isAccount := Undefined;
     amount := Undefined;
     desc := Undefined;
     billNumber := str "NAPAS0042" |}.

(** ** Reference renderings used to state the properties *)

(** The [k] least significant digits of [n] in base [radix], most
    significant first, leading zeros included. *)
Fixpoint fixedDigits (radix : Z) (k : nat) (n : Z) : jsstring :=
  match k with
  | O => []
  | S k' => fixedDigits radix k' (n / radix) ++ [digitChar (n mod radix)]
  end.

(** A decimal digit as a character. *)
Definition decimalDigit (d : Z) : Z := 48 + d.

(** A length as two decimal digits. *)
Definition twoDigits (n : Z) : jsstring :=
  [decimalDigit (n / 10); decimalDigit (n mod 10)].

(** A number below 10000 as four decimal digits. *)
Definition fourDigits (n : Z) : jsstring :=
  [decimalDigit (n / 1000); decimalDigit (n / 100 mod 10);
   decimalDigit (n / 10 mod 10); decimalDigit (n mod 10)].

(** An upper-case hexadecimal digit as a character. *)
Definition upperHex (d : Z) : Z := nth (Z.to_nat d) (str "0123456789ABCDEF") 0.

(** A 16-bit value as four upper-case hexadecimal digits. *)
Definition hex4 (v : Z) : jsstring :=
  [upperHex (v / 4096); upperHex (v / 256 mod 16);
   upperHex (v / 16 mod 16); upperHex (v mod 16)].

(** The checksum as the specification words it, on unbounded integers:
    one shift of the register, ... *)
Definition crcShift_spec (crc : Z) : Z :=
  Z.land
    (if Z.testbit crc 15
     then Z.lxor (Z.shiftl crc 1) 0x1021
     else Z.shiftl crc 1)
    0xFFFF.

(** ... one character: XOR with the char code shifted left by 8, then
    eight shifts, ... *)
Definition crcChar_spec (crc code : Z) : Z :=
  Nat.iter 8 crcShift_spec (Z.lxor crc (Z.shiftl code 8)).

(** ... and the whole input, from the initial state 0xFFFF, with no final
    XOR. *)
Definition crc16_spec (codes : list Z) : Z :=
  fold_left crcChar_spec codes 0xFFFF.

(** The char codes the loop of [#calculateCRC16] reads: the first code unit
    of every character the string iterator yields. *)
Definition charCodes (data : jsstring) : list Z :=
  map (fun char => charCodeAt char 0) (stringIterator data).

(** ** The CSV utility: more of the runtime *)

(** WhiteSpace and LineTerminator code units, which [trim] strips. *)
Definition isWhiteSpace (c : Z) : bool :=
  (c =? 0x9) || (c =? 0xA) || (c =? 0xB) || (c =? 0xC) || (c =? 0xD)
  || (c =? 0x20) || (c =? 0xA0) || (c =? 0x1680)
  || ((0x2000 <=? c) && (c <=? 0x200A))
  || (c =? 0x2028) || (c =? 0x2029) || (c =? 0x202F) || (c =? 0x205F)
  || (c =? 0x3000) || (c =? 0xFEFF).

Fixpoint trimStart (s : jsstring) : jsstring :=
  match s with
  | c :: t => if isWhiteSpace c then trimStart t else s
  | [] => []
  end.

Definition trimEnd (s : jsstring) : jsstring := rev (trimStart (rev s)).

(** [s.trim()]. *)
Definition trim (s : jsstring) : jsstring := trimEnd (trimStart s).

(** [v.trim()] on a value that may be [undefined]. *)
Definition trimMethod (v : jsval) : result jsstring :=
  match v with
  | Str s => Ok (trim s)
  | _ => Throw TypeError
  end.

(** [s.split(separator)] for a separator of one code unit, as all the
    separators of the source are. *)
Fixpoint split (s : jsstring) (separator : Z) : list jsstring :=
  match s with
  | [] => [[]]
  | c :: t =>
      if c =? separator then [] :: split t separator
      else
        match split t separator with
        | piece :: pieces => (c :: piece) :: pieces
        | [] => [[c]]
        end
  end.

(** [array[i]]: [undefined] past the end. *)
Definition element (array : list jsstring) (i : nat) : jsval :=
  match nth_error array i with
  | Some s => Str s
  | None => Undefined
  end.

(** [array.includes(v)]. *)
Definition includes (array : list jsval) (v : jsval) : bool :=
  existsb (strictEq v) array.

(** ** The class [CsvFilter] *)

Module CsvFilter.

Definition DEFAULT_FILEPATH := str "./nhansu_ttlt_vii.csv".

(** The field of an instance. *)
Record t := mk { filePath : jsval }.

Definition constructor (filePath : jsval) : t :=
  {| filePath := if truthy filePath then filePath else Str DEFAULT_FILEPATH |}.

(** A parsed line. *)
Record Member := mkMember {
  memberNo : jsstring;
  fullName : jsstring;
  phoneNumber : jsstring;
  dateOfBirth : jsstring;
  address : jsstring;
  clubCommittee : jsstring;
  position : jsstring
}.

(** The body of the [forEach] of [#handelReadFile]: destructure the first
    seven fields of the line and trim each, in the order of the object
    literal. *)
Definition parseMember (member : jsstring) : result Member :=
  let fields := firstn 7 (split member 44) in
  f0 <- trimMethod (element fields 0) ;;
  f1 <- trimMethod (element fields 1) ;;
  f2 <- trimMethod (element fields 2) ;;
  f3 <- trimMethod (element fields 3) ;;
  f4 <- trimMethod (element fields 4) ;;
  f5 <- trimMethod (element fields 5) ;;
  f6 <- trimMethod (element fields 6) ;;
  Ok (mkMember f0 f1 f2 f3 f4 f5 f6).

(** The [i]-th field of a line, trimmed, and the member a line of at least
    seven fields stands for. *)
Definition fieldOf (line : jsstring) (i : nat) : jsstring :=
  trim (nth i (split line 44) []).

Definition memberOf (line : jsstring) : Member :=
  mkMember (fieldOf line 0) (fieldOf line 1) (fieldOf line 2)
    (fieldOf line 3) (fieldOf line 4) (fieldOf line 5) (fieldOf line 6).

(** [lines.forEach(member => result.push(...))]. *)
Fixpoint forEachPush (lines : list jsstring) (result : list Member)
  : JS.result (list Member) :=
  match lines with
  | [] => Ok result
  | member :: rest =>
      parsed <- parseMember member ;;
      forEachPush rest (result ++ [parsed])
  end.

(** The entry of a month in the object [filterMemberByMonthBirthDay]
    builds. *)
Record MonthEntry := mkEntry { members : list jsstring; total : Z }.

(** That object: its own properties in insertion order.  All its keys
    start with "month_", so none is an integer index or a property of
    [Object.prototype]. *)
Definition object := list (jsstring * MonthEntry).

Fixpoint getProp (o : object) (key : jsstring) : option MonthEntry :=
  match o with
  | [] => None
  | (k, v) :: rest => if string_eqb k key then Some v else getProp rest key
  end.

Fixpoint setProp (o : object) (key : jsstring) (value : MonthEntry) : object :=
  match o with
  | [] => [(key, value)]
  | (k, v) :: rest =>
      if string_eqb k key then (k, value) :: rest
      else (k, v) :: setProp rest key value
  end.

(** The month a member's date of birth names:
    [member.dateOfBirth.split("/")[1]]. *)
Definition monthOf (member : Member) : jsval :=
  element (split (dateOfBirth member) 47) 1.

(** The line written for a member. *)
Definition lineOf (member : Member) : jsstring :=
  fullName member ++ str " - " ++ dateOfBirth member ++ str " - "
  ++ clubCommittee member ++ str " - " ++ position member.

(** The key a member is looked up under:
    ["month_" + String(month || "").padStart(2, "0")]. *)
Definition keyOf (member : Member) : jsstring :=
  let month := monthOf member in
  let memMonth :=
    padStart (toStr (if truthy month then month else Str [])) 2 (str "0") in
  str "month_" ++ memMonth.

(** The body of the first loop of [filterMemberByMonthBirthDay]:
    [result[`month_${month}`] = { members: [], total: 0 }]. *)
Definition addMonth (result : object) (month : jsval) : object :=
  setProp result (str "month_" ++ toStr month) (mkEntry [] 0).

(** The body of its second loop: when the object has the member's key, push
    the member's line and count it. *)
Definition fileMember (result : object) (member : Member) : object :=
  let key := keyOf member in
  match getProp result key with
  | Some entry =>
      setProp result key
        (mkEntry (members entry ++ [lineOf member]) (total entry + 1))
  | None => result
  end.

Definition separatorLine : jsstring := repeat 45 57 ++ [10].

(** "Tổng số thành viên: " *)
Definition totalLabel : jsstring :=
  [0x54; 0x1ED5; 0x6E; 0x67; 0x20; 0x73; 0x1ED1; 0x20; 0x74; 0x68; 0xE0;
   0x6E; 0x68; 0x20; 0x76; 0x69; 0xEA; 0x6E; 0x3A; 0x20].

(** The text written for one month. *)
Definition outputOf (entry : MonthEntry) : jsstring :=
  concat (map (fun member => member ++ [10]) (members entry))
  ++ separatorLine
  ++ totalLabel ++ numToString (total entry) 10 ++ [10; 10].

(** What the second loop keeps true of the object, for members taken from
    [data]. *)
Definition monthObjectOk (data : list Member) (o : object)
  : Prop :=
  NoDup (map fst o)
  /\ forall k e,
       In (k, e) o ->
       total e = Z.of_nat (List.length (members e))
       /\ (exists m, k = str "month_" ++ m)
       /\ forall line,
            In line (members e) ->
            exists member,
              In member data /\ line = lineOf member
              /\ keyOf member = k.

Section Methods.

(** [fs.readFileSync(path, "utf-8")] and [fs.writeFileSync(path, data,
    "utf-8")]: the file system answers with the content, or throws.  The
    file is taken not to change between the reads of one call. *)
Variable readFileSync : jsval -> result jsstring.
Variable writeFileSync : jsstring -> jsstring -> result unit.

Variable this : t.

Definition handelReadFile : result (list Member) :=
  content <- readFileSync (filePath this) ;;
  forEachPush (split content 10) [].

Definition options : result (list jsval) :=
  data <- handelReadFile ;;
  Ok (fold_left
        (fun result member =>
           let f := Str (clubCommittee member) in
           if negb (includes result f) then result ++ [f] else result)
        data []).

Definition arrMonths : result (list jsval) :=
  data <- handelReadFile ;;
  Ok (fold_left
        (fun result member =>
           let m := monthOf member in
           if negb (includes result m) then result ++ [m] else result)
        data []).

Definition totalMember : result Z :=
  data <- handelReadFile ;;
  Ok (Z.of_nat (List.length data)).

Definition getDataMember : result (list Member) := handelReadFile.

Definition writeFileHandel (path inputData : jsstring) : result unit :=
  writeFileSync path inputData.

Definition filterMemberByMonthBirthDay : result object :=
  data <- handelReadFile ;;
  arrMonths <- arrMonths ;;
  let result := fold_left addMonth arrMonths [] in
  Ok (fold_left fileMember data result).

(** The loop [for (let m in data)] of [writeTxtFileFilterBirthday]: one
    file per key, and the count of the keys. *)
Fixpoint writeEach (data : object) (c : Z) : result Z :=
  match data with
  | [] => Ok c
  | (m, entry) :: rest =>
      _ <- writeFileHandel (str "./Results/birthday_" ++ m ++ str ".txt")
             (outputOf entry) ;;
      writeEach rest (c + 1)
  end.

Definition writeTxtFileFilterBirthday : result bool :=
  data <- filterMemberByMonthBirthDay ;;
  c <- writeEach data 0 ;;
  Ok (c =? 12).

End Methods.

End CsvFilter.

(** Sample files: two members with two-digit months, and the same with a
    third member whose month is written "3"; a file system that holds one
    of them under every path and accepts every write. *)
Definition sampleCsv : jsstring :=
  str "1,Nguyen An,0901,01/02/2000,Ha Noi,Media,Lead" ++ [10]
  ++ str "2, Tran Binh ,0902,15/11/2001,Hue,Event,Member".

Definition sampleCsvShortMonth : jsstring :=
  sampleCsv ++ [10] ++ str "3,Le Chi,0903,7/3/1999,Da Nang,Media,Member".

Definition holding (content : jsstring) : jsval -> result jsstring :=
  fun _ => Ok content.

Definition acceptingWrites : jsstring -> jsstring -> result unit :=
  fun _ _ => Ok tt.

Definition sampleThis : CsvFilter.t := CsvFilter.constructor Undefined.

Definition sampleMembers : list CsvFilter.Member :=
  [CsvFilter.mkMember (str "1") (str "Nguyen An") (str "0901")
     (str "01/02/2000") (str "Ha Noi") (str "Media") (str "Lead");
   CsvFilter.mkMember (str "2") (str "Tran Binh") (str "0902")
     (str "15/11/2001") (str "Hue") (str "Event") (str "Member")].

Definition sampleMembersShortMonth : list CsvFilter.Member :=
  sampleMembers
  ++ [CsvFilter.mkMember (str "3") (str "Le Chi") (str "0903")
        (str "7/3/1999") (str "Da Nang") (str "Media") (str "Member")].

Definition sampleObject : CsvFilter.object :=
  [(str "month_02",
    CsvFilter.mkEntry [str "Nguyen An - 01/02/2000 - Media - Lead"] 1);
   (str "month_11",
    CsvFilter.mkEntry [str "Tran Binh - 15/11/2001 - Event - Member"] 1)].

(** A surrogate pair occurs in a string: a high surrogate immediately
    followed by a low surrogate. *)
Fixpoint hasSurrogatePair (s : jsstring) : bool :=
  match s with
  | [] => false
  | c :: t =>
      match t with
      | d :: _ => (isHighSurrogate c && isLowSurrogate d) || hasSurrogatePair t
      | [] => false
      end
  end.

(** An ASCII string: every code unit is below 128. *)
Definition isAscii (s : jsstring) : Prop := Forall (fun c => 0 <= c < 128) s.

(** The distinct values of a list in the order of their first occurrence. *)
Fixpoint firstOccurrences (l : list jsval) : list jsval :=
  match l with
  | [] => []
  | x :: t => x :: filter (fun y => negb (strictEq y x)) (firstOccurrences t)
  end.

(** A segment is a well-formed TLV of a tag when the TLV builder produces it
    from that tag and some value. *)
Definition isTLV (tag segment : jsstring) : Prop :=
  exists value, buildTLV tag (Str value) = Ok segment.

(** ** Number rendering *)

Section Digits.

Variable radix : Z.
Hypothesis radix_ge_2 : 2 <= radix.

Lemma fixedDigits_0 (k : nat) : fixedDigits radix k 0 = repeat 48 k.
Proof.
  induction k as [|k IH]; simpl; [reflexivity|].
  rewrite Z.div_0_l, Z.mod_0_l by lia.
  rewrite IH. symmetry. apply repeat_cons.
Qed.

Lemma fixedDigits_length (k : nat) (n : Z) :
  List.length (fixedDigits radix k n) = k.
Proof.
  revert n; induction k as [|k IH]; intros n; simpl; [reflexivity|].
  rewrite length_app, IH. simpl. lia.
Qed.

(** With enough fuel, the digits of [n] are its fixed-width digits
    without the leading zeros. *)
Lemma digitsFuel_fixedDigits (k : nat) :
  forall (f : nat) (n : Z),
    0 <= n < radix ^ Z.of_nat k ->
    n < radix ^ Z.of_nat f ->
    (1 <= k)%nat -> (1 <= f)%nat ->
    exists m : nat,
      (m + List.length (digitsFuel radix f n) = k)%nat /\
      fixedDigits radix k n = repeat 48 m ++ digitsFuel radix f n.
Proof.
  induction k as [|k IH]; intros f n Hn Hf Hk H1; [lia|].
  destruct f as [|f]; [lia|].
  simpl digitsFuel. simpl fixedDigits.
  rewrite Nat2Z.inj_succ, Z.pow_succ_r in Hn, Hf by lia.
  destruct (n <? radix) eqn:E.
  - apply Z.ltb_lt in E. exists k. split; [simpl; lia|].
    rewrite Z.div_small, Z.mod_small by lia.
    now rewrite fixedDigits_0.
  - apply Z.ltb_ge in E.
    assert (Hq : 0 <= n / radix) by (apply Z.div_pos; lia).
    assert (Hqk : n / radix < radix ^ Z.of_nat k)
      by (apply Z.div_lt_upper_bound; lia).
    assert (Hqf : n / radix < radix ^ Z.of_nat f)
      by (apply Z.div_lt_upper_bound; lia).
    assert (Hq1 : 1 <= n / radix)
      by (apply Z.div_le_lower_bound; lia).
    assert (Hk' : (1 <= k)%nat).
    { destruct k; [simpl in Hqk; lia | lia]. }
    assert (Hf' : (1 <= f)%nat).
    { destruct f; [simpl in Hqf; lia | lia]. }
    destruct (IH f (n / radix) (conj Hq Hqk) Hqf Hk' Hf') as (m & Hm & Heq).
    exists m. split.
    + rewrite length_app. simpl. lia.
    + rewrite Heq, <- app_assoc. reflexivity.
Qed.

Lemma log2_fuel (n : Z) :
  0 <= n -> n < radix ^ Z.of_nat (S (Z.to_nat (Z.log2 n))).
Proof.
  intros Hn.
  rewrite Nat2Z.inj_succ, Z2Nat.id by apply Z.log2_nonneg.
  apply Z.lt_le_trans with (2 ^ Z.succ (Z.log2 n)).
  - destruct (Z.eq_dec n 0) as [->|Hne]; [reflexivity|].
    apply Z.log2_spec; lia.
  - apply Z.pow_le_mono_l. lia.
Qed.

Lemma pad_zeros (m : nat) : firstn m (concat (repeat [48] m)) = repeat 48 m.
Proof.
  assert (H : forall j, concat (repeat [48] j) = repeat 48 j).
  { induction j as [|j IH]; simpl; [reflexivity | now rewrite IH]. }
  rewrite H. apply firstn_all2. rewrite repeat_length. lia.
Qed.

(** [n.toString(radix).padStart(k, '0')] is the [k]-digit rendering of
    [n], for [0 <= n < radix^k]. *)
Lemma padStart_numToString (k : nat) (n : Z) :
  0 <= n < radix ^ Z.of_nat k -> (1 <= k)%nat ->
  padStart (numToString n radix) (Z.of_nat k) (str "0") = fixedDigits radix k n.
Proof.
  intros Hn Hk. unfold numToString.
  destruct (n <? 0) eqn:E; [apply Z.ltb_lt in E; lia|].
  destruct (digitsFuel_fixedDigits k (S (Z.to_nat (Z.log2 n))) n Hn)
    as (m & Hm & Heq); [apply log2_fuel; lia | lia | lia |].
  rewrite Heq. unfold padStart.
  set (ds := digitsFuel radix _ n) in *.
  change (string_eqb (str "0") []) with false. rewrite orb_false_r.
  destruct (Z.of_nat k <=? Z.of_nat (List.length ds)) eqn:L.
  - apply Z.leb_le in L. assert (m = 0%nat) by lia. subst m. reflexivity.
  - apply Z.leb_gt in L.
    replace (Z.to_nat (Z.of_nat k - Z.of_nat (List.length ds))) with m by lia.
    change (str "0") with [48]. now rewrite pad_zeros.
Qed.

End Digits.

Lemma digitChar_decimal (d : Z) : 0 <= d < 10 -> digitChar d = decimalDigit d.
Proof.
  intros H. unfold digitChar, decimalDigit.
  destruct (d <? 10) eqn:E; [reflexivity | apply Z.ltb_ge in E; lia].
Qed.

Lemma padStart_twoDigits (n : Z) :
  0 <= n < 100 -> padStart (numToString n 10) 2 (str "0") = twoDigits n.
Proof.
  intros H.
  pose proof (padStart_numToString 10 ltac:(lia) 2 n) as E.
  change (Z.of_nat 2) with 2 in E. rewrite E by (simpl; lia). clear E.
  cbn [fixedDigits app]. unfold twoDigits.
  assert (0 <= n / 10 < 10)
    by (split; [apply Z.div_pos | apply Z.div_lt_upper_bound]; lia).
  rewrite (Z.mod_small (n / 10)) by lia.
  rewrite !digitChar_decimal; [reflexivity | apply Z.mod_pos_bound; lia | lia].
Qed.

Lemma padStart_fourDigits (n : Z) :
  0 <= n < 10000 -> padStart (numToString n 10) 4 (str "0") = fourDigits n.
Proof.
  intros H.
  pose proof (padStart_numToString 10 ltac:(lia) 4 n) as E.
  change (Z.of_nat 4) with 4 in E. rewrite E by (simpl; lia). clear E.
  cbn [fixedDigits app]. unfold fourDigits.
  rewrite !Z.div_div by lia. change (10 * 10 * 10) with 1000.
  change (10 * 10) with 100.
  assert (0 <= n / 1000 < 10)
    by (split; [apply Z.div_pos | apply Z.div_lt_upper_bound]; lia).
  rewrite (Z.mod_small (n / 1000)) by lia.
  rewrite !digitChar_decimal;
    [reflexivity | try apply Z.mod_pos_bound; lia ..].
Qed.

Lemma upper_digitChar (d : Z) :
  0 <= d < 16 -> upperUnit (digitChar d) = upperHex d.
Proof.
  intros H.
  assert (C : d = 0 \/ d = 1 \/ d = 2 \/ d = 3 \/ d = 4 \/ d = 5 \/ d = 6
              \/ d = 7 \/ d = 8 \/ d = 9 \/ d = 10 \/ d = 11 \/ d = 12
              \/ d = 13 \/ d = 14 \/ d = 15) by lia.
  repeat (destruct C as [->|C]; [reflexivity|]). now subst.
Qed.

Lemma padStart_toUpperCase (s : jsstring) (k : Z) :
  padStart (toUpperCase s) k (str "0") = toUpperCase (padStart s k (str "0")).
Proof.
  unfold padStart, toUpperCase. rewrite length_map.
  destruct ((k <=? Z.of_nat (List.length s)) || string_eqb (str "0") []);
    [reflexivity|].
  change (str "0") with [48]. rewrite pad_zeros, map_app, map_repeat.
  reflexivity.
Qed.

(** The rendering step of [#calculateCRC16] on a 16-bit value. *)
Lemma render_hex4 (v : Z) :
  0 <= v < 65536 ->
  padStart (toUpperCase (numToString v 16)) 4 (str "0") = hex4 v.
Proof.
  intros H. rewrite padStart_toUpperCase.
  pose proof (padStart_numToString 16 ltac:(lia) 4 v) as E.
  change (Z.of_nat 4) with 4 in E. rewrite E by (simpl; lia). clear E.
  cbn [fixedDigits app toUpperCase map]. unfold hex4.
  rewrite !Z.div_div by lia. change (16 * 16 * 16) with 4096.
  change (16 * 16) with 256.
  assert (0 <= v / 4096 < 16)
    by (split; [apply Z.div_pos | apply Z.div_lt_upper_bound]; lia).
  rewrite (Z.mod_small (v / 4096)) by lia.
  rewrite !upper_digitChar;
    [reflexivity | try apply Z.mod_pos_bound; lia ..].
Qed.

(** ** 32-bit operators and the CRC register *)

Lemma toInt32_mod (z : Z) : toInt32 z mod 2 ^ 32 = z mod 2 ^ 32.
Proof.
  unfold toInt32. rewrite Zminus_mod_idemp_l. f_equal. lia.
Qed.

Lemma toInt32_testbit (z n : Z) :
  n < 32 -> Z.testbit (toInt32 z) n = Z.testbit z n.
Proof.
  intros H.
  rewrite <- (Z.mod_pow2_bits_low (toInt32 z) 32 n), toInt32_mod by lia.
  apply Z.mod_pow2_bits_low; lia.
Qed.

Lemma shl_testbit (c k n : Z) :
  0 <= k < 32 -> 0 <= n < 32 ->
  Z.testbit (shl c k) n = Z.testbit (Z.shiftl c k) n.
Proof.
  intros Hk Hn. unfold shl.
  change 31 with (Z.ones 5). rewrite Z.land_ones, Z.mod_small by lia.
  rewrite toInt32_testbit, !Z.shiftl_spec by lia.
  apply toInt32_testbit. lia.
Qed.

Lemma bitXor_testbit (a b n : Z) :
  n < 32 -> Z.testbit (bitXor a b) n = xorb (Z.testbit a n) (Z.testbit b n).
Proof.
  intros H. unfold bitXor.
  now rewrite Z.lxor_spec, !toInt32_testbit.
Qed.

Lemma land_FFFF (x : Z) : Z.land x 0xFFFF = x mod 2 ^ 16.
Proof. change 0xFFFF with (Z.ones 16). apply Z.land_ones. lia. Qed.

Lemma land_8000 (x : Z) :
  Z.land x 0x8000 = if Z.testbit x 15 then 0x8000 else 0.
Proof.
  apply Z.bits_inj'. intros m Hm.
  rewrite Z.land_spec. change 0x8000 with (2 ^ 15).
  rewrite Z.pow2_bits_eqb by lia.
  destruct (Z.eqb_spec 15 m) as [<-|Hne].
  - destruct (Z.testbit x 15); [now rewrite Z.pow2_bits_true | now rewrite Z.bits_0].
  - rewrite andb_false_r.
    destruct (Z.testbit x 15);
      [rewrite Z.pow2_bits_false by lia | rewrite Z.bits_0]; reflexivity.
Qed.

(** The loop's test [crc & 0x8000] reads bit 15 of the register. *)
Lemma bit15_test (crc : Z) :
  truthyNum (bitAnd crc 0x8000) = Z.testbit crc 15.
Proof.
  unfold bitAnd. change (toInt32 0x8000) with 0x8000.
  rewrite land_8000, toInt32_testbit by lia.
  now destruct (Z.testbit crc 15).
Qed.

Lemma mod16_ext (a b : Z) :
  (forall n, 0 <= n < 16 -> Z.testbit a n = Z.testbit b n) ->
  a mod 2 ^ 16 = b mod 2 ^ 16.
Proof.
  intros H. apply Z.bits_inj'. intros n Hn.
  destruct (Z.lt_ge_cases n 16).
  - rewrite !Z.mod_pow2_bits_low by lia. apply H. lia.
  - now rewrite !Z.mod_pow2_bits_high by lia.
Qed.

Lemma mod16_testbit (a b m : Z) :
  a mod 2 ^ 16 = b mod 2 ^ 16 -> m < 16 -> Z.testbit a m = Z.testbit b m.
Proof.
  intros H Hm.
  rewrite <- (Z.mod_pow2_bits_low a 16 m), H by lia.
  apply Z.mod_pow2_bits_low. lia.
Qed.

(** The inner loop body on 32-bit operators is the shift of the
    specification, for every register content. *)
Lemma crcShift_refines (crc : Z) : crcShift crc = crcShift_spec crc.
Proof.
  unfold crcShift, crcShift_spec. rewrite bit15_test.
  unfold bitAnd at 1. change (toInt32 0xFFFF) with 0xFFFF.
  rewrite !land_FFFF. apply mod16_ext. intros n Hn.
  rewrite toInt32_testbit by lia.
  destruct (Z.testbit crc 15).
  - rewrite bitXor_testbit, Z.lxor_spec, shl_testbit by lia. reflexivity.
  - apply shl_testbit; lia.
Qed.

(** The shift only reads the low 16 bits of the register. *)
Lemma crcShift_spec_low16 (a b : Z) :
  a mod 2 ^ 16 = b mod 2 ^ 16 -> crcShift_spec a = crcShift_spec b.
Proof.
  intros H. unfold crcShift_spec.
  rewrite (mod16_testbit a b 15 H) by lia.
  rewrite !land_FFFF. apply mod16_ext. intros n Hn.
  destruct (Z.testbit b 15);
    rewrite ?Z.lxor_spec, !Z.shiftl_spec by lia;
    rewrite (mod16_testbit a b (n - 1) H) by lia; reflexivity.
Qed.

Lemma crcShift_spec_range (crc : Z) : 0 <= crcShift_spec crc < 65536.
Proof.
  unfold crcShift_spec. rewrite land_FFFF.
  apply Z.mod_pos_bound. lia.
Qed.

Lemma iter_ext {A} (f g : A -> A) (n : nat) (x : A) :
  (forall y, f y = g y) -> Nat.iter n f x = Nat.iter n g x.
Proof.
  intros H. induction n as [|n IH]; simpl; [reflexivity|].
  now rewrite IH, H.
Qed.

Lemma crcChar_refines (crc : Z) (char : jsstring) :
  crcChar crc char = crcChar_spec crc (charCodeAt char 0).
Proof.
  unfold crcChar, crcChar_spec.
  rewrite (iter_ext crcShift crcShift_spec) by apply crcShift_refines.
  rewrite !(Nat.iter_succ_r 7). f_equal.
  apply crcShift_spec_low16, mod16_ext. intros n Hn.
  rewrite bitXor_testbit, Z.lxor_spec, shl_testbit by lia. reflexivity.
Qed.

(** Truncating the shifted char code to 16 bits before the XOR, as the
    specification suggests, changes nothing. *)
Lemma crcChar_spec_truncated (crc code : Z) :
  crcChar_spec crc code
  = Nat.iter 8 crcShift_spec (Z.lxor crc (Z.shiftl code 8 mod 2 ^ 16)).
Proof.
  unfold crcChar_spec. rewrite !(Nat.iter_succ_r 7). f_equal.
  apply crcShift_spec_low16, mod16_ext. intros n Hn.
  now rewrite !Z.lxor_spec, Z.mod_pow2_bits_low by lia.
Qed.

Lemma crcChar_spec_range (crc code : Z) : 0 <= crcChar_spec crc code < 65536.
Proof. unfold crcChar_spec. simpl Nat.iter. apply crcShift_spec_range. Qed.

Lemma fold_left_map_ext {A B C} (f : A -> B -> A) (g : A -> C -> A) (h : B -> C) :
  (forall a b, f a b = g a (h b)) ->
  forall (l : list B) (a : A), fold_left f l a = fold_left g (map h l) a.
Proof.
  intros H l. induction l as [|b l IH]; intros a; simpl; [reflexivity|].
  rewrite H. apply IH.
Qed.

Lemma crcLoop_refines (data : jsstring) : crcLoop data = crc16_spec (charCodes data).
Proof.
  unfold crcLoop, crc16_spec, charCodes.
  apply fold_left_map_ext, crcChar_refines.
Qed.

Lemma crc16_spec_range (codes : list Z) : 0 <= crc16_spec codes < 65536.
Proof.
  unfold crc16_spec.
  assert (H : forall a, 0 <= a < 65536 -> 0 <= fold_left crcChar_spec codes a < 65536).
  { induction codes as [|c l IH]; intros a Ha; cbn [fold_left]; [exact Ha|].
    apply IH, crcChar_spec_range. }
  apply H. lia.
Qed.

Lemma calculateCRC16_hex4 (data : jsstring) :
  calculateCRC16 data = hex4 (crc16_spec (charCodes data)).
Proof.
  unfold calculateCRC16. rewrite crcLoop_refines.
  apply render_hex4, crc16_spec_range.
Qed.

Lemma calculateCRC16_length (data : jsstring) :
  List.length (calculateCRC16 data) = 4%nat.
Proof. now rewrite calculateCRC16_hex4. Qed.

(** ** Values and strict equality *)

Lemma string_eqb_eq (a b : jsstring) : string_eqb a b = true <-> a = b.
Proof.
  revert b. induction a as [|x a IH]; intros [|y b]; simpl;
    try (split; [discriminate | discriminate]); [tauto|].
  rewrite andb_true_iff, Z.eqb_eq, IH.
  split; [intros [-> ->]; reflexivity | intros [= -> ->]; auto].
Qed.

Lemma strictEq_eq (a b : jsval) : strictEq a b = true <-> a = b.
Proof.
  destruct a as [|x|x], b as [|y|y]; simpl;
    try (split; [discriminate | discriminate]); [tauto| |].
  - rewrite eqb_true_iff. split; [intros ->; reflexivity | intros [= ->]; auto].
  - rewrite string_eqb_eq. split; [intros ->; reflexivity | intros [= ->]; auto].
Qed.

Lemma strictEq_neq (a b : jsval) : strictEq a b = false <-> a <> b.
Proof.
  rewrite <- strictEq_eq. destruct (strictEq a b); split; congruence.
Qed.

Lemma truthy_Str (s : jsstring) : truthy (Str s) = true <-> s <> [].
Proof.
  simpl. rewrite negb_true_iff. rewrite <- (string_eqb_eq s []).
  destruct (string_eqb s []); split; congruence.
Qed.

(** ** Length formatter and TLV builder *)

Lemma formatLength_in_range (s : jsstring) :
  1 <= Z.of_nat (List.length s) <= 99 ->
  formatLength (Str s) = Ok (twoDigits (Z.of_nat (List.length s))).
Proof.
  intros H. unfold formatLength, toStringMethod, toStr, bind.
  destruct (Z.ltb_spec (Z.of_nat (List.length s)) 1); [lia|].
  destruct (Z.ltb_spec 99 (Z.of_nat (List.length s))); [lia|].
  cbn [orb]. now rewrite padStart_twoDigits by lia.
Qed.

Lemma formatLength_out_of_range (s : jsstring) :
  Z.of_nat (List.length s) < 1 \/ 99 < Z.of_nat (List.length s) ->
  formatLength (Str s) = Throw (LengthOutOfRange (Z.of_nat (List.length s))).
Proof.
  intros H. unfold formatLength, toStringMethod, toStr, bind.
  destruct (Z.ltb_spec (Z.of_nat (List.length s)) 1);
    destruct (Z.ltb_spec 99 (Z.of_nat (List.length s))); try reflexivity; lia.
Qed.

Lemma buildTLV_in_range (id s : jsstring) :
  1 <= Z.of_nat (List.length s) <= 99 ->
  buildTLV id (Str s) = Ok (id ++ twoDigits (Z.of_nat (List.length s)) ++ s).
Proof.
  intros H. unfold buildTLV. now rewrite formatLength_in_range.
Qed.

Lemma buildTLV_out_of_range (id s : jsstring) :
  Z.of_nat (List.length s) < 1 \/ 99 < Z.of_nat (List.length s) ->
  buildTLV id (Str s) = Throw (LengthOutOfRange (Z.of_nat (List.length s))).
Proof.
  intros H. unfold buildTLV. now rewrite formatLength_out_of_range.
Qed.

(** ** Properties of the generator *)

(** The CRC16 calculator on the char codes its loop reads: its result is
    the four upper-case, zero-padded hexadecimal digits of the register that
    the specification's algorithm leaves on the first code unit of every
    character the string iterator yields. *)
Theorem calculateCRC16_matches_spec (data : jsstring) :
  calculateCRC16 data = hex4 (crc16_spec (charCodes data))
  /\ List.length (calculateCRC16 data) = 4%nat
  /\ crc16_spec (charCodes []) = 0xFFFF
  /\ calculateCRC16 [] = str "FFFF".
Proof.
  split; [apply calculateCRC16_hex4|].
  split; [apply calculateCRC16_length|].
  split; [reflexivity|].
  rewrite calculateCRC16_hex4. reflexivity.
Qed.

(** C4. For every tag and every value of length L with 1 <= L <= 99 the
    TLV builder returns tag, then L as two zero-padded decimal digits,
    then the value; and TLVBuilder("01", "2543663452") is
    "01102543663452". *)
Theorem buildTLV_format (tag value : jsstring) :
  1 <= Z.of_nat (List.length value) <= 99 ->
  buildTLV tag (Str value)
    = Ok (tag ++ twoDigits (Z.of_nat (List.length value)) ++ value)
  /\ buildTLV (str "01") (Str (str "2543663452")) = Ok (str "01102543663452").
Proof.
  intros H. split; [now apply buildTLV_in_range|].
  now rewrite buildTLV_in_range by (simpl; lia).
Qed.

Lemma buildTLV_format_witness :
  1 <= Z.of_nat (List.length (str "50000")) <= 99
  /\ buildTLV (str "54") (Str (str "50000")) = Ok (str "540550000").
Proof.
  split; [simpl; lia|].
  apply (buildTLV_format (str "54") (str "50000")). simpl; lia.
Defined.

Lemma examples_constructed :
  constructor (drawn 42) (Str (str "970407")) (Str (str "2543663452"))
    Undefined Undefined Undefined Undefined = Ok exampleStatic
  /\ constructor (drawn 42) (Str (str "970407")) (Str (str "2543663452"))
       (Str (str "dynamic")) (Bool true) (Str (str "50000"))
       (Str (str "Thanh toan")) = Ok exampleDynamic
  /\ constructor (drawn 42) (Str (str "970407")) (Str (str "2543663452"))
       (Str (str "DYNAMIC")) (Bool true) (Str (str "0"))
       (Str (str "Thanh toan")) = Ok exampleZeroAmount
  /\ constructor (drawn 42) (Str (str "970407")) (Str (str "2543663452"))
       (Str (str "DYNAMIC")) (Bool true) (Str (str "50000"))
       (Str (str "")) = Ok exampleEmptyDesc
  /\ constructor (drawn 42) (Str (str "970407")) (Str (str "2543663452"))
       (Str (str "dynamicc")) (Bool true) (Str (str "50000"))
       (Str (str "Thanh toan")) = Ok exampleHybrid
  /\ constructor (drawn 42) (Str (str "970407")) (Str (str ""))
       Undefined Undefined Undefined Undefined = Ok exampleEmptyAccount.
Proof. repeat split; vm_compute; reflexivity. Qed.

Lemma exampleStatic_payload :
  generateQR exampleStatic =
  Ok (str "00020101021138540010A00000072701240006970407011025436634520208QRIBFTTC53037045802VN6304B887").
Proof. vm_compute. reflexivity. Qed.

Lemma exampleDynamic_payload :
  generateQR exampleDynamic =
  Ok (str "00020101021238540010A00000072701240006970407011025436634520208QRIBFTTA53037045405500005802VN62270109NAPAS00420810Thanh toan6304CE61").
Proof. vm_compute. reflexivity. Qed.

(** The register of CRC-16/CCITT-FALSE on the standard check input. *)
Lemma crc16_check_value : calculateCRC16 (str "123456789") = str "29B1".
Proof. vm_compute. reflexivity. Qed.

(** On a string without high surrogates the loop reads every code unit. *)
Lemma charCodes_no_surrogates (data : jsstring) :
  Forall (fun c => isHighSurrogate c = false) data -> charCodes data = data.
Proof.
  unfold charCodes. induction data as [|c t IH]; intros H; [reflexivity|].
  inversion H as [|? ? Hc Ht]; subst. specialize (IH Ht).
  destruct t as [|d t']; [reflexivity|].
  change (stringIterator (c :: d :: t'))
    with (if isHighSurrogate c && isLowSurrogate d
          then [c; d] :: stringIterator t'
          else [c] :: stringIterator (d :: t')).
  rewrite Hc. cbn [andb map charCodeAt nth].
  now rewrite IH.
Qed.

(** A surrogate pair is one character; the loop reads its first unit. *)
Lemma charCodes_surrogate_pair : charCodes [0xD83D; 0xDE00] = [0xD83D].
Proof. reflexivity. Qed.

(** Without a surrogate pair the loop reads every code unit of the string. *)
Lemma charCodes_no_pair (data : jsstring) :
  hasSurrogatePair data = false -> charCodes data = data.
Proof.
  unfold charCodes. induction data as [|c t IH]; intros H; [reflexivity|].
  destruct t as [|d t']; [reflexivity|].
  change (hasSurrogatePair (c :: d :: t'))
    with ((isHighSurrogate c && isLowSurrogate d)
          || hasSurrogatePair (d :: t')) in H.
  apply orb_false_iff in H. destruct H as [P H].
  change (stringIterator (c :: d :: t'))
    with (if isHighSurrogate c && isLowSurrogate d
          then [c; d] :: stringIterator t'
          else [c] :: stringIterator (d :: t')).
  rewrite P. cbn [map charCodeAt nth]. now rewrite IH.
Qed.

(** C3, the claim as stated fails on a surrogate pair: the loop visits the
    pair as one character and reads its first code unit only, so the result
    is not what the algorithm gives on the two code units of the input. *)
Lemma surrogate_pair_read_once :
  calculateCRC16 [0xD83D; 0xDE00] = str "060E"
  /\ hex4 (crc16_spec [0xD83D; 0xDE00]) = str "6EC6"
  /\ calculateCRC16 [0xD83D; 0xDE00] <> hex4 (crc16_spec [0xD83D; 0xDE00]).
Proof.
  split; [vm_compute; reflexivity|].
  split; [vm_compute; reflexivity | vm_compute; discriminate].
Qed.

(** C3, amended.  The CRC16 calculator is total: on every input it returns
    four characters, and on the empty string "FFFF", the untouched initial
    register 0xFFFF.  On every input in which no surrogate pair occurs its
    result is the four upper-case, zero-padded hexadecimal digits of the
    register that the specification's algorithm leaves on the code units of
    the input: start at 0xFFFF; per code unit, in order, XOR with the code
    shifted left by 8, then eight times shift left, XOR-ing 0x1021 when bit
    15 was set, masked to 16 bits; no final XOR. *)
Theorem calculateCRC16_on_code_units (data : jsstring) :
  List.length (calculateCRC16 data) = 4%nat
  /\ calculateCRC16 [] = str "FFFF"
  /\ crc16_spec [] = 0xFFFF
  /\ (hasSurrogatePair data = false ->
      calculateCRC16 data = hex4 (crc16_spec data)).
Proof.
  split; [apply calculateCRC16_length|].
  split; [rewrite calculateCRC16_hex4; reflexivity|].
  split; [reflexivity|].
  intros H. rewrite calculateCRC16_hex4. now rewrite charCodes_no_pair.
Qed.

Lemma calculateCRC16_on_code_units_witness :
  hasSurrogatePair (str "123456789") = false
  /\ calculateCRC16 (str "123456789") = hex4 (crc16_spec (str "123456789"))
  /\ hex4 (crc16_spec (str "123456789")) = str "29B1".
Proof.
  assert (H : hasSurrogatePair (str "123456789") = false) by reflexivity.
  split; [exact H|].
  split; [|vm_compute; reflexivity].
  destruct (calculateCRC16_on_code_units (str "123456789")) as (_ & _ & _ & E).
  exact (E H).
Defined.

Lemma firstn_skipn_trailer {A} (a b : list A) :
  firstn (List.length (a ++ b) - List.length b) (a ++ b) = a
  /\ skipn (List.length (a ++ b) - List.length b) (a ++ b) = b.
Proof.
  rewrite length_app, Nat.add_sub. split.
  - rewrite firstn_app, firstn_all, Nat.sub_diag. simpl. apply app_nil_r.
  - rewrite skipn_app, skipn_all, Nat.sub_diag. reflexivity.
Qed.

Lemma trailer4 {A} (a b : list A) :
  List.length b = 4%nat ->
  firstn (List.length (a ++ b) - 4) (a ++ b) = a
  /\ skipn (List.length (a ++ b) - 4) (a ++ b) = b.
Proof. intros <-. apply firstn_skipn_trailer. Qed.

Ltac unfold_constants :=
  unfold CONSTANTS.PAYLOAD_FORMAT, CONSTANTS.PIM_STATIC, CONSTANTS.PIM_DYNAMIC,
    CONSTANTS.CURRENCY, CONSTANTS.COUNTRY, CONSTANTS.CRC_ID,
    CONSTANTS.AMOUNT_ID, CONSTANTS.ADDITIONAL_DATA_ID,
    CONSTANTS.BILL_NUMBER_ID, CONSTANTS.PURPOSE_ID, CONSTANTS.MERCHANT_ID,
    CONSTANTS.DVCNTT_ID in *.

(** C1. Whenever the three fallible segments are produced, [generateQR]
    returns the concatenation, in this order, of "000201", the point of
    initiation constant, the merchant account info, "5303704", the amount
    TLV, "5802VN", the additional data, the literal "6304" and the CRC16 of
    all that precedes, which has four characters; when a segment throws,
    in the order they are computed, [generateQR] throws the same error. *)
Theorem generateQR_field_order (this : QRGeneration) :
  match getMerchantAccountInfo this, getTransactionAmount this,
        getAdditionalData this with
  | Ok merchantAccountInfo, Ok amountTLV, Ok additionalData =>
      let qrData :=
        str "000201"
        ++ (if strictEq (initType this) (Str (str "STATIC"))
            then str "010211" else str "010212")
        ++ merchantAccountInfo ++ str "5303704" ++ amountTLV ++ str "5802VN"
        ++ additionalData ++ str "6304" in
      generateQR this = Ok (qrData ++ calculateCRC16 qrData)
      /\ List.length (calculateCRC16 qrData) = 4%nat
  | Throw e, _, _ => generateQR this = Throw e
  | Ok _, Throw e, _ => generateQR this = Throw e
  | Ok _, Ok _, Throw e => generateQR this = Throw e
  end.
Proof.
  unfold generateQR, getPointOfInitiation, bind. unfold_constants.
  destruct (getMerchantAccountInfo this) as [m|e]; [|reflexivity].
  destruct (getTransactionAmount this) as [a|e]; [|reflexivity].
  destruct (getAdditionalData this) as [d|e]; [|reflexivity].
  cbv zeta. split; [reflexivity | apply calculateCRC16_length].
Qed.

(** C2. For a payload P returned by [generateQR], the CRC16 of P without
    its last four characters is those last four characters, and what is
    hashed ends with the checksum tag and length "6304". *)
Theorem crc_round_trip (this : QRGeneration) (P : jsstring) :
  generateQR this = Ok P ->
  let n := (List.length P - 4)%nat in
  calculateCRC16 (firstn n P) = skipn n P
  /\ List.length (skipn n P) = 4%nat
  /\ exists fields, firstn n P = fields ++ str "6304".
Proof.
  intros H. unfold generateQR, bind in H.
  destruct (getMerchantAccountInfo this) as [m|e]; [|discriminate].
  destruct (getTransactionAmount this) as [a|e]; [|discriminate].
  destruct (getAdditionalData this) as [d|e]; [|discriminate].
  cbv zeta in H.
  match type of H with
  | Ok (?q ++ _) = _ => set (qrData := q) in *
  end.
  assert (E : P = qrData ++ calculateCRC16 qrData) by congruence.
  subst P. cbv zeta.
  pose proof (calculateCRC16_length qrData) as L.
  destruct (trailer4 qrData _ L) as [-> ->].
  split; [reflexivity|]. split; [exact L|].
  unfold qrData, CONSTANTS.CRC_ID. eexists. rewrite !app_assoc. reflexivity.
Qed.

Lemma crc_round_trip_witness :
  generateQR exampleStatic =
    Ok (str "00020101021138540010A00000072701240006970407011025436634520208QRIBFTTC53037045802VN6304B887")
  /\ calculateCRC16
       (str "00020101021138540010A00000072701240006970407011025436634520208QRIBFTTC53037045802VN6304")
     = str "B887".
Proof.
  assert (H : generateQR exampleStatic =
              Ok (str "00020101021138540010A00000072701240006970407011025436634520208QRIBFTTC53037045802VN6304B887"))
    by (vm_compute; reflexivity).
  split; [exact H|].
  exact (proj1 (crc_round_trip exampleStatic _ H)).
Defined.

(** The literal "6304" is what the TLV builder would put in front of a
    checksum: tag "63" and the length of four characters. *)
Lemma checksum_trailer_is_TLV (data : jsstring) :
  buildTLV (str "63") (Str (calculateCRC16 data))
  = Ok (str "6304" ++ calculateCRC16 data).
Proof.
  rewrite buildTLV_in_range by (rewrite calculateCRC16_length; simpl; lia).
  rewrite calculateCRC16_length. reflexivity.
Qed.

(** The checksum does cover the "6304": over the seven fields alone the
    CRC16 of the usage example would be another value. *)
Lemma checksum_covers_its_tag :
  calculateCRC16
    (str "00020101021138540010A00000072701240006970407011025436634520208QRIBFTTC53037045802VN6304")
  = str "B887"
  /\ calculateCRC16
       (str "00020101021138540010A00000072701240006970407011025436634520208QRIBFTTC53037045802VN")
     <> str "B887".
Proof. split; [vm_compute; reflexivity | vm_compute; discriminate]. Qed.

(** C8. When [getComponents] returns a record, its fields are the
    segments [generateQR] is built from: concatenating them in payload
    order, then "6304", then the CRC16 of the fields followed by "6304",
    is the payload; and when [getComponents] throws, [generateQR] throws
    the same error. *)
Theorem getComponents_consistent (this : QRGeneration) :
  match getComponents this with
  | Ok c =>
      Components.payloadFormat c = str "000201"
      /\ Components.pointOfInitiation c = getPointOfInitiation this
      /\ getMerchantAccountInfo this = Ok (Components.merchantAccount c)
      /\ Components.currency c = str "5303704"
      /\ getTransactionAmount this = Ok (Components.amount c)
      /\ Components.country c = str "5802VN"
      /\ getAdditionalData this = Ok (Components.additionalData c)
      /\ Components.billNumber c = billNumber this
      /\ let fields :=
           Components.payloadFormat c ++ Components.pointOfInitiation c
           ++ Components.merchantAccount c ++ Components.currency c
           ++ Components.amount c ++ Components.country c
           ++ Components.additionalData c in
         generateQR this
         = Ok (fields ++ str "6304" ++ calculateCRC16 (fields ++ str "6304"))
  | Throw e => generateQR this = Throw e
  end.
Proof.
  unfold getComponents, generateQR, bind. unfold_constants.
  destruct (getMerchantAccountInfo this) as [m|e]; [|reflexivity].
  destruct (getTransactionAmount this) as [a|e]; [|reflexivity].
  destruct (getAdditionalData this) as [d|e]; [|reflexivity].
  cbn [Components.payloadFormat Components.pointOfInitiation
       Components.merchantAccount Components.currency Components.amount
       Components.country Components.additionalData Components.billNumber].
  repeat (split; [reflexivity|]).
  cbv zeta. rewrite <- !app_assoc. reflexivity.
Qed.

(** C10. An instance whose [initType] is neither "STATIC" nor "DYNAMIC"
    gets the DYNAMIC point of initiation "010212" and neither an amount
    TLV nor additional data. *)
Theorem unrecognised_initType_hybrid (this : QRGeneration) :
  initType this <> Str (str "STATIC") ->
  initType this <> Str (str "DYNAMIC") ->
  getPointOfInitiation this = str "010212"
  /\ getTransactionAmount this = Ok []
  /\ getAdditionalData this = Ok []
  /\ match getMerchantAccountInfo this with
     | Ok merchantAccountInfo =>
         let qrData :=
           str "000201" ++ str "010212" ++ merchantAccountInfo
           ++ str "5303704" ++ str "5802VN" ++ str "6304" in
         generateQR this = Ok (qrData ++ calculateCRC16 qrData)
     | Throw e => generateQR this = Throw e
     end.
Proof.
  intros HS HD. apply strictEq_neq in HS, HD.
  assert (P : getPointOfInitiation this = str "010212")
    by (unfold getPointOfInitiation; now rewrite HS).
  assert (A : getTransactionAmount this = Ok [])
    by (unfold getTransactionAmount; now rewrite HD).
  assert (D : getAdditionalData this = Ok [])
    by (unfold getAdditionalData; now rewrite HD).
  repeat (split; [assumption|]).
  unfold generateQR, bind. rewrite P, A, D. unfold_constants.
  destruct (getMerchantAccountInfo this) as [m|e]; reflexivity.
Qed.

Lemma unrecognised_initType_hybrid_witness :
  constructor (drawn 42) (Str (str "970407")) (Str (str "2543663452"))
    (Str (str "dynamicc")) (Bool true) (Str (str "50000"))
    (Str (str "Thanh toan")) = Ok exampleHybrid
  /\ initType exampleHybrid <> Str (str "STATIC")
  /\ initType exampleHybrid <> Str (str "DYNAMIC")
  /\ getPointOfInitiation exampleHybrid = str "010212"
  /\ getTransactionAmount exampleHybrid = Ok []
  /\ getAdditionalData exampleHybrid = Ok [].
Proof.
  assert (HS : initType exampleHybrid <> Str (str "STATIC"))
    by (apply strictEq_neq; reflexivity).
  assert (HD : initType exampleHybrid <> Str (str "DYNAMIC"))
    by (apply strictEq_neq; reflexivity).
  split; [vm_compute; reflexivity|].
  split; [exact HS|]. split; [exact HD|].
  destruct (unrecognised_initType_hybrid exampleHybrid HS HD) as (P & A & D & _).
  exact (conj P (conj A D)).
Defined.

Lemma buildTLV_nonempty (id : jsstring) (value : jsval) (tlv : jsstring) :
  id <> [] -> buildTLV id value = Ok tlv -> tlv <> [].
Proof.
  intros Hid H. unfold buildTLV, bind in H.
  destruct (formatLength value) as [len|e]; [|discriminate].
  assert (tlv = id ++ len ++ toStr value) by congruence. subst tlv.
  destruct id; [congruence | discriminate].
Qed.

Lemma buildTLV_throws (id s : jsstring) (e : exn) :
  buildTLV id (Str s) = Throw e ->
  e = LengthOutOfRange (Z.of_nat (List.length s))
  /\ (Z.of_nat (List.length s) < 1 \/ 99 < Z.of_nat (List.length s)).
Proof.
  intros H.
  destruct (Z.ltb_spec (Z.of_nat (List.length s)) 1) as [L1|L1];
    [|destruct (Z.ltb_spec 99 (Z.of_nat (List.length s))) as [L2|L2]].
  - rewrite buildTLV_out_of_range in H by lia. split; [congruence | lia].
  - rewrite buildTLV_out_of_range in H by lia. split; [congruence | lia].
  - rewrite buildTLV_in_range in H by lia. discriminate.
Qed.

(** C5. On a string value the length formatter, and with it the TLV
    builder, throws LengthOutOfRange exactly when the length is below 1 or
    above 99, so the empty value and a 101-character value are rejected;
    the error of a nested builder is the error of the merchant account info
    builder, of the additional data builder and of [generateQR], which
    then returns no payload. *)
Theorem LengthOutOfRange_gate
  (this : QRGeneration) (tag value : jsstring) (e : exn) :
  let L := Z.of_nat (List.length value) in
  (formatLength (Str value) = Throw (LengthOutOfRange L) <-> L < 1 \/ 99 < L)
  /\ (buildTLV tag (Str value) = Throw (LengthOutOfRange L) <-> L < 1 \/ 99 < L)
  /\ (forall e', buildTLV tag (Str value) = Throw e' -> e' = LengthOutOfRange L)
  /\ buildTLV tag (Str []) = Throw (LengthOutOfRange 0)
  /\ (List.length value = 101%nat ->
      buildTLV tag (Str value) = Throw (LengthOutOfRange 101))
  /\ (buildTLV (str "01") (accNo this) = Throw e ->
      getMerchantAccountInfo this = Throw e)
  /\ (forall merchantInfo,
        getMerchantInfo this = Ok merchantInfo ->
        formatLength (Str merchantInfo) = Throw e ->
        getMerchantAccountInfo this = Throw e)
  /\ (forall billData,
        initType this = Str (str "DYNAMIC") ->
        buildTLV (str "01") (Str (billNumber this)) = Ok billData ->
        buildTLV (str "08") (desc this) = Throw e ->
        getAdditionalData this = Throw e)
  /\ (getMerchantAccountInfo this = Throw e -> generateQR this = Throw e)
  /\ (forall m,
        getMerchantAccountInfo this = Ok m ->
        getTransactionAmount this = Throw e ->
        generateQR this = Throw e)
  /\ (forall m a,
        getMerchantAccountInfo this = Ok m ->
        getTransactionAmount this = Ok a ->
        getAdditionalData this = Throw e ->
        generateQR this = Throw e)
  /\ (generateQR this = Throw e -> forall P, generateQR this <> Ok P).
Proof.
  cbv zeta. repeat apply conj.
  - intros H.
    destruct (Z.ltb_spec (Z.of_nat (List.length value)) 1);
      [lia | destruct (Z.ltb_spec 99 (Z.of_nat (List.length value))); [lia|]].
    rewrite formatLength_in_range in H by lia. discriminate.
  - apply formatLength_out_of_range.
  - intros H. now apply buildTLV_throws in H.
  - apply buildTLV_out_of_range.
  - intros e' H. now apply buildTLV_throws in H.
  - apply (buildTLV_out_of_range tag []). simpl. lia.
  - intros H. rewrite buildTLV_out_of_range by lia. now rewrite H.
  - intros H. unfold getMerchantAccountInfo, getMerchantInfo, bind.
    unfold_constants. now rewrite H.
  - intros mi H1 H2. unfold getMerchantAccountInfo, bind. now rewrite H1, H2.
  - intros b HD H1 H2. unfold getAdditionalData, bind. unfold_constants.
    rewrite HD, H1, H2. reflexivity.
  - intros H. unfold generateQR, bind. now rewrite H.
  - intros m H1 H2. unfold generateQR, bind. now rewrite H1, H2.
  - intros m a H1 H2 H3. unfold generateQR, bind. now rewrite H1, H2, H3.
  - intros H P. rewrite H. discriminate.
Qed.

Lemma LengthOutOfRange_gate_witness :
  buildTLV (str "01") (accNo exampleEmptyAccount) = Throw (LengthOutOfRange 0)
  /\ getMerchantAccountInfo exampleEmptyAccount = Throw (LengthOutOfRange 0)
  /\ generateQR exampleEmptyAccount = Throw (LengthOutOfRange 0).
Proof.
  assert (H : buildTLV (str "01") (accNo exampleEmptyAccount)
              = Throw (LengthOutOfRange 0)) by (vm_compute; reflexivity).
  destruct (LengthOutOfRange_gate exampleEmptyAccount (str "01") []
              (LengthOutOfRange 0))
    as (_ & _ & _ & _ & _ & M & _ & _ & G & _).
  split; [exact H|]. split; [exact (M H) | exact (G (M H))].
Defined.

(** C6, the claim as stated fails: with the initiation type DYNAMIC and the
    amount "0" the amount TLV "54010" is emitted. *)
Lemma zero_amount_is_emitted :
  constructor (drawn 42) (Str (str "970407")) (Str (str "2543663452"))
    (Str (str "DYNAMIC")) (Bool true) (Str (str "0"))
    (Str (str "Thanh toan")) = Ok exampleZeroAmount
  /\ getTransactionAmount exampleZeroAmount = Ok (str "54010")
  /\ getTransactionAmount exampleZeroAmount <> Ok [].
Proof.
  split; [vm_compute; reflexivity|].
  split; [vm_compute; reflexivity | vm_compute; discriminate].
Qed.

(** C6, amended.  The amount TLV is emitted only when the initiation type
    is DYNAMIC and the amount is truthy (for a string amount: not the empty
    string): it is then the TLV of the amount under tag "54", and the
    contribution is empty otherwise.  The additional data is
    emitted only when the initiation type is DYNAMIC: it is then the TLV,
    under tag "62", of the bill number TLV (tag "01") followed by the
    description TLV (tag "08"), and the contribution is empty otherwise. *)
Theorem optional_segments (this : QRGeneration) :
  (forall tlv,
      getTransactionAmount this = Ok tlv -> tlv <> [] ->
      initType this = Str (str "DYNAMIC") /\ truthy (amount this) = true)
  /\ (initType this <> Str (str "DYNAMIC") \/ truthy (amount this) = false ->
      getTransactionAmount this = Ok [])
  /\ (initType this = Str (str "DYNAMIC") -> truthy (amount this) = true ->
      getTransactionAmount this = buildTLV (str "54") (amount this)
      /\ getTransactionAmount this <> Ok [])
  /\ (forall d,
        getAdditionalData this = Ok d -> d <> [] ->
        initType this = Str (str "DYNAMIC"))
  /\ (initType this <> Str (str "DYNAMIC") -> getAdditionalData this = Ok [])
  /\ (initType this = Str (str "DYNAMIC") ->
      getAdditionalData this
      = (billData <- buildTLV (str "01") (Str (billNumber this)) ;;
         purposeData <- buildTLV (str "08") (desc this) ;;
         buildTLV (str "62") (Str (billData ++ purposeData)))
      /\ getAdditionalData this <> Ok []).
Proof.
  unfold getTransactionAmount, getAdditionalData. unfold_constants.
  destruct (strictEq (initType this) (Str (str "DYNAMIC"))) eqn:E;
    [apply strictEq_eq in E | apply strictEq_neq in E]; cbn [negb andb].
  - repeat apply conj.
    + intros tlv H Hne. split; [exact E|].
      destruct (truthy (amount this)); [reflexivity | congruence].
    + intros [H|H]; [contradiction | now rewrite H].
    + intros _ T. rewrite T. split; [reflexivity|].
      intros H. now apply buildTLV_nonempty in H.
    + intros; exact E.
    + intros H; contradiction.
    + intros _. split; [reflexivity|].
      intros H. unfold bind in H.
      destruct (buildTLV (str "01") (Str (billNumber this))); [|discriminate].
      destruct (buildTLV (str "08") (desc this)); [|discriminate].
      now apply buildTLV_nonempty in H.
  - repeat apply conj; try congruence; reflexivity.
Qed.

Lemma optional_segments_witness :
  initType exampleZeroAmount = Str (str "DYNAMIC")
  /\ truthy (amount exampleZeroAmount) = true
  /\ getTransactionAmount exampleZeroAmount
     = buildTLV (str "54") (amount exampleZeroAmount)
  /\ initType exampleStatic <> Str (str "DYNAMIC")
  /\ getTransactionAmount exampleStatic = Ok []
  /\ getAdditionalData exampleStatic = Ok [].
Proof.
  assert (D : initType exampleZeroAmount = Str (str "DYNAMIC")) by reflexivity.
  assert (T : truthy (amount exampleZeroAmount) = true) by reflexivity.
  assert (S : initType exampleStatic <> Str (str "DYNAMIC"))
    by (apply strictEq_neq; reflexivity).
  destruct (optional_segments exampleZeroAmount) as (_ & _ & A & _).
  destruct (optional_segments exampleStatic) as (_ & B & _ & _ & C & _).
  exact (conj D (conj T (conj (proj1 (A D T))
           (conj S (conj (B (or_introl S)) (C S)))))).
Defined.

(** C7, at the failing input: a DYNAMIC instance with the empty
    description, which the documented range 0-99 of [desc] allows, makes
    [generateQR] (and [getComponents]) throw LengthOutOfRange for length
    0. *)
Theorem empty_description_rejected :
  constructor (drawn 42) (Str (str "970407")) (Str (str "2543663452"))
    (Str (str "DYNAMIC")) (Bool true) (Str (str "50000"))
    (Str (str "")) = Ok exampleEmptyDesc
  /\ buildTLV (str "08") (desc exampleEmptyDesc) = Throw (LengthOutOfRange 0)
  /\ getAdditionalData exampleEmptyDesc = Throw (LengthOutOfRange 0)
  /\ generateQR exampleEmptyDesc = Throw (LengthOutOfRange 0)
  /\ getComponents exampleEmptyDesc = Throw (LengthOutOfRange 0).
Proof. repeat split; vm_compute; reflexivity. Qed.

(** Whatever the other fields, a DYNAMIC instance with the empty
    description yields no payload. *)
Lemma empty_description_never_accepted (this : QRGeneration) (P : jsstring) :
  initType this = Str (str "DYNAMIC") -> desc this = Str [] ->
  generateQR this <> Ok P.
Proof.
  intros HD HE H. unfold generateQR, bind in H.
  destruct (getMerchantAccountInfo this); [|discriminate].
  destruct (getTransactionAmount this); [|discriminate].
  destruct (getAdditionalData this) as [d|e] eqn:A; [|discriminate].
  unfold getAdditionalData, bind in A. unfold_constants.
  rewrite HD, HE in A. cbn [strictEq] in A.
  rewrite (proj2 (string_eqb_eq _ _) eq_refl) in A. cbn [negb] in A.
  destruct (buildTLV (str "01") (Str (billNumber this))); [|discriminate].
  rewrite (buildTLV_out_of_range (str "08") []) in A by (simpl; lia).
  discriminate.
Qed.

Lemma fourDigits_decimal (n : Z) :
  0 <= n < 10000 -> Forall (fun c => 48 <= c <= 57) (fourDigits n).
Proof.
  intros H. unfold fourDigits, decimalDigit.
  assert (0 <= n / 1000 < 10)
    by (split; [apply Z.div_pos | apply Z.div_lt_upper_bound]; lia).
  pose proof (Z.mod_pos_bound (n / 100) 10 ltac:(lia)).
  pose proof (Z.mod_pos_bound (n / 10) 10 ltac:(lia)).
  pose proof (Z.mod_pos_bound n 10 ltac:(lia)).
  repeat constructor; lia.
Qed.

Lemma getComponents_billNumber (this : QRGeneration) (c : Components.t) :
  getComponents this = Ok c -> Components.billNumber c = billNumber this.
Proof.
  intros H. unfold getComponents, bind in H.
  destruct (getMerchantAccountInfo this); [|discriminate].
  destruct (getTransactionAmount this); [|discriminate].
  destruct (getAdditionalData this); [|discriminate].
  injection H as <-. reflexivity.
Qed.

(** C9. Whatever number below 10000 the random source draws, the bill
    number of a constructed instance is "NAPAS" followed by the four
    zero-padded decimal digits of that number; it is a field of the
    instance, which [getComponents] reports as it is. *)
Theorem billNumber_format
  (randomInt : Z -> Z) (bin acc init isAcc amt dsc : jsval)
  (this : QRGeneration) :
  0 <= randomInt 10000 < 10000 ->
  constructor randomInt bin acc init isAcc amt dsc = Ok this ->
  billNumber this = str "NAPAS" ++ fourDigits (randomInt 10000)
  /\ Forall (fun c => 48 <= c <= 57) (fourDigits (randomInt 10000))
  /\ List.length (billNumber this) = 9%nat
  /\ (forall c, getComponents this = Ok c ->
               Components.billNumber c = billNumber this).
Proof.
  intros R H. unfold constructor, bind in H.
  destruct (optionalToUpperCase init) as [upper|e]; [|discriminate].
  assert (B : billNumber this = generateBillNumber randomInt)
    by (injection H as <-; reflexivity).
  unfold generateBillNumber, CONSTANTS.BILL_PREFIX in B.
  rewrite padStart_fourDigits in B by lia.
  split; [exact B|]. split; [now apply fourDigits_decimal|].
  split; [rewrite B; reflexivity|].
  intros c C. now apply getComponents_billNumber.
Qed.

Lemma billNumber_format_witness :
  0 <= drawn 7 10000 < 10000
  /\ constructor (drawn 7) (Str (str "970407")) (Str (str "2543663452"))
       Undefined Undefined Undefined Undefined
     = Ok (mkQRGeneration (Str (str "970407")) (Str (str "2543663452"))
             (Str (str "STATIC")) Undefined Undefined Undefined
             (str "NAPAS0007"))
  /\ billNumber (mkQRGeneration (Str (str "970407")) (Str (str "2543663452"))
                   (Str (str "STATIC")) Undefined Undefined Undefined
                   (str "NAPAS0007"))
     = str "NAPAS" ++ fourDigits (drawn 7 10000).
Proof.
  assert (R : 0 <= drawn 7 10000 < 10000) by (unfold drawn; lia).
  assert (C : constructor (drawn 7) (Str (str "970407"))
                (Str (str "2543663452")) Undefined Undefined Undefined
                Undefined
              = Ok (mkQRGeneration (Str (str "970407"))
                      (Str (str "2543663452")) (Str (str "STATIC"))
                      Undefined Undefined Undefined (str "NAPAS0007")))
    by (vm_compute; reflexivity).
  split; [exact R|]. split; [exact C|].
  exact (proj1 (billNumber_format _ _ _ _ _ _ _ _ R C)).
Defined.

(** ** Further properties of the generator *)

Ltac unfold_all_constants :=
  unfold CONSTANTS.PAYLOAD_FORMAT, CONSTANTS.PIM_STATIC, CONSTANTS.PIM_DYNAMIC,
    CONSTANTS.CURRENCY, CONSTANTS.COUNTRY, CONSTANTS.CRC_ID,
    CONSTANTS.AMOUNT_ID, CONSTANTS.ADDITIONAL_DATA_ID,
    CONSTANTS.BILL_NUMBER_ID, CONSTANTS.PURPOSE_ID, CONSTANTS.MERCHANT_ID,
    CONSTANTS.DVCNTT_ID, CONSTANTS.ACQUIRER_ID, CONSTANTS.BENEFICIARY_ORG_ID,
    CONSTANTS.GUID, CONSTANTS.SERVICE_ACCOUNT, CONSTANTS.SERVICE_CARD,
    CONSTANTS.BILL_PREFIX in *.

(** Lengths of concatenations of literals, two-digit fields and variables. *)
Ltac list_len :=
  repeat rewrite length_app;
  repeat match goal with
    | |- context [List.length (str ?s)] =>
        let n := eval vm_compute in (List.length (str s)) in
        change (List.length (str s)) with n
    | |- context [List.length (twoDigits ?n)] =>
        change (List.length (twoDigits n)) with 2%nat
    end.

Lemma getServiceType_length (this : QRGeneration) :
  List.length (getServiceType this) = 12%nat.
Proof. unfold getServiceType. now destruct (truthy (isAccount this)). Qed.

(** The merchant info block of an instance with string fields. *)
Lemma getMerchantInfo_layout (this : QRGeneration) (bin acc : jsstring) :
  bankBin this = Str bin -> accNo this = Str acc ->
  1 <= Z.of_nat (List.length acc) <= 99 ->
  getMerchantInfo this
  = Ok (str "0006" ++ bin ++ str "01"
        ++ twoDigits (Z.of_nat (List.length acc)) ++ acc).
Proof.
  intros Hb Ha L. unfold getMerchantInfo, bind. unfold_all_constants.
  rewrite Hb, Ha, buildTLV_in_range by lia. cbn [toStr].
  now rewrite <- !app_assoc.
Qed.

Lemma merchantInfo_length (bin acc : jsstring) :
  Z.of_nat (List.length (str "0006" ++ bin ++ str "01"
                         ++ twoDigits (Z.of_nat (List.length acc)) ++ acc))
  = 8 + Z.of_nat (List.length bin) + Z.of_nat (List.length acc).
Proof. list_len. lia. Qed.

Lemma fullData_length (this : QRGeneration) (len merchantInfo : jsstring) :
  List.length len = 2%nat ->
  Z.of_nat (List.length (str "0010A000000727" ++ str "01" ++ len
                         ++ merchantInfo ++ getServiceType this))
  = 30 + Z.of_nat (List.length merchantInfo).
Proof.
  intros H. list_len. rewrite H, getServiceType_length. lia.
Qed.

(** For string bank BIN and account number, with a non-empty account
    number and at most 61 characters in the two together, the merchant
    account info is the TLV "38" of: the GUID, "01", the two-digit length of
    the merchant info, the merchant info ("0006", the BIN, and the TLV "01"
    of the account number), and the service code. *)
Lemma merchantAccountInfo_ok
  (this : QRGeneration) (bin acc : jsstring) :
  bankBin this = Str bin -> accNo this = Str acc ->
  1 <= Z.of_nat (List.length acc) ->
  Z.of_nat (List.length bin) + Z.of_nat (List.length acc) <= 61 ->
  getMerchantAccountInfo this
  = Ok (str "38"
        ++ twoDigits (38 + Z.of_nat (List.length bin)
                      + Z.of_nat (List.length acc))
        ++ str "0010A000000727" ++ str "01"
        ++ twoDigits (8 + Z.of_nat (List.length bin)
                      + Z.of_nat (List.length acc))
        ++ (str "0006" ++ bin ++ str "01"
            ++ twoDigits (Z.of_nat (List.length acc)) ++ acc)
        ++ getServiceType this).
Proof.
  intros Hb Ha L1 L2. unfold getMerchantAccountInfo, bind.
  rewrite (getMerchantInfo_layout this bin acc Hb Ha) by lia.
  pose proof (merchantInfo_length bin acc) as M.
  set (mi := str "0006" ++ bin ++ str "01" ++ _ ++ acc) in *.
  rewrite formatLength_in_range by lia. rewrite M.
  unfold_all_constants.
  pose proof (fullData_length this
                (twoDigits (8 + Z.of_nat (List.length bin)
                            + Z.of_nat (List.length acc))) mi eq_refl) as F.
  rewrite buildTLV_in_range by lia. rewrite F, M.
  match goal with
  | |- context [twoDigits (30 + ?x)] =>
      replace (30 + x)
        with (38 + Z.of_nat (List.length bin) + Z.of_nat (List.length acc))
        by lia
  end.
  reflexivity.
Qed.

(** For string bank BIN and account number the merchant account info
    is rejected in exactly three ways: an account number of length 0 or
    above 99 (the error names that length), a merchant info above 99
    characters (BIN and account number together above 91; the error names
    8 more than their sum), and a wrapped block above 99 characters (BIN
    and account number together from 62 to 91; the error names 38 more than
    their sum). *)
Lemma merchantAccountInfo_errors
  (this : QRGeneration) (bin acc : jsstring) :
  bankBin this = Str bin -> accNo this = Str acc ->
  let lb := Z.of_nat (List.length bin) in
  let la := Z.of_nat (List.length acc) in
  (la < 1 \/ 99 < la ->
   getMerchantAccountInfo this = Throw (LengthOutOfRange la))
  /\ (1 <= la <= 99 -> 91 < lb + la ->
      getMerchantAccountInfo this = Throw (LengthOutOfRange (8 + lb + la)))
  /\ (1 <= la -> 61 < lb + la <= 91 ->
      getMerchantAccountInfo this = Throw (LengthOutOfRange (38 + lb + la))).
Proof.
  intros Hb Ha. cbv zeta. repeat apply conj.
  - intros L. unfold getMerchantAccountInfo, getMerchantInfo, bind.
    unfold_all_constants.
    rewrite Ha, buildTLV_out_of_range by lia. reflexivity.
  - intros L1 L2. unfold getMerchantAccountInfo, bind.
    rewrite (getMerchantInfo_layout this bin acc Hb Ha) by lia.
    pose proof (merchantInfo_length bin acc) as M.
    rewrite formatLength_out_of_range by lia. now rewrite M.
  - intros L1 L2. unfold getMerchantAccountInfo, bind.
    rewrite (getMerchantInfo_layout this bin acc Hb Ha) by lia.
    pose proof (merchantInfo_length bin acc) as M.
    set (mi := str "0006" ++ bin ++ str "01" ++ _ ++ acc) in *.
    rewrite formatLength_in_range by lia. rewrite M.
    unfold_all_constants.
    pose proof (fullData_length this
                  (twoDigits (8 + Z.of_nat (List.length bin)
                              + Z.of_nat (List.length acc))) mi eq_refl) as F.
    rewrite buildTLV_out_of_range by lia. rewrite F, M.
    match goal with
    | |- context [LengthOutOfRange (30 + ?x)] =>
        replace (30 + x)
          with (38 + Z.of_nat (List.length bin) + Z.of_nat (List.length acc))
          by lia
    end.
    reflexivity.
Qed.

Lemma generateQR_throws_merchant (this : QRGeneration) (e : exn) :
  getMerchantAccountInfo this = Throw e ->
  generateQR this = Throw e /\ getComponents this = Throw e.
Proof.
  intros H. unfold generateQR, getComponents, bind. now rewrite H.
Qed.

(** X1. For string bank BIN and account number, with a non-empty account
    number and at most 61 characters in the two together, the merchant
    account info is the TLV "38" of: the GUID, "01", the two-digit length of
    the merchant info, the merchant info ("0006", the BIN, and the TLV "01"
    of the account number), and the service code; it has 42 characters
    more than the BIN and the account number. *)
Theorem getMerchantAccountInfo_layout
  (this : QRGeneration) (bin acc : jsstring) :
  bankBin this = Str bin -> accNo this = Str acc ->
  1 <= Z.of_nat (List.length acc) ->
  Z.of_nat (List.length bin) + Z.of_nat (List.length acc) <= 61 ->
  exists info,
    getMerchantAccountInfo this = Ok info
    /\ info = str "38"
              ++ twoDigits (38 + Z.of_nat (List.length bin)
                            + Z.of_nat (List.length acc))
              ++ str "0010A000000727" ++ str "01"
              ++ twoDigits (8 + Z.of_nat (List.length bin)
                            + Z.of_nat (List.length acc))
              ++ (str "0006" ++ bin ++ str "01"
                  ++ twoDigits (Z.of_nat (List.length acc)) ++ acc)
              ++ getServiceType this
    /\ Z.of_nat (List.length info)
       = 42 + Z.of_nat (List.length bin) + Z.of_nat (List.length acc).
Proof.
  intros Hb Ha L1 L2. eexists. split; [|split; [reflexivity|]].
  - now apply merchantAccountInfo_ok.
  - list_len. rewrite getServiceType_length. lia.
Qed.

Lemma getMerchantAccountInfo_layout_witness :
  bankBin exampleStatic = Str (str "970407")
  /\ accNo exampleStatic = Str (str "2543663452")
  /\ getMerchantAccountInfo exampleStatic
     = Ok (str "38540010A00000072701240006970407011025436634520208QRIBFTTC").
Proof.
  split; [reflexivity|]. split; [reflexivity|].
  destruct (getMerchantAccountInfo_layout exampleStatic (str "970407")
              (str "2543663452") eq_refl eq_refl)
    as (info & H & E & _); [simpl; lia | simpl; lia |].
  rewrite H, E. reflexivity.
Defined.

(** X2. For string bank BIN and account number the builder rejects in
    exactly three ways, and [generateQR] and [getComponents] throw the same
    error: an account number of length 0 or above 99 (the error names that
    length); BIN and account number together above 91 (the merchant info
    is too long; the error names 8 more than their sum); BIN and account
    number together from 62 to 91 (the wrapped block is too long; the
    error names 38 more than their sum). *)
Theorem getMerchantAccountInfo_rejects
  (this : QRGeneration) (bin acc : jsstring) :
  bankBin this = Str bin -> accNo this = Str acc ->
  let lb := Z.of_nat (List.length bin) in
  let la := Z.of_nat (List.length acc) in
  let rejectedWith e :=
    getMerchantAccountInfo this = Throw e
    /\ generateQR this = Throw e /\ getComponents this = Throw e in
  (la < 1 \/ 99 < la -> rejectedWith (LengthOutOfRange la))
  /\ (1 <= la <= 99 -> 91 < lb + la ->
      rejectedWith (LengthOutOfRange (8 + lb + la)))
  /\ (1 <= la -> 61 < lb + la <= 91 ->
      rejectedWith (LengthOutOfRange (38 + lb + la))).
Proof.
  intros Hb Ha. cbv zeta.
  destruct (merchantAccountInfo_errors this bin acc Hb Ha) as (E1 & E2 & E3).
  cbv zeta in E1, E2, E3.
  repeat apply conj; intros;
    (split; [|apply generateQR_throws_merchant]); auto.
Qed.

Lemma getMerchantAccountInfo_rejects_witness :
  bankBin exampleEmptyAccount = Str (str "970407")
  /\ accNo exampleEmptyAccount = Str []
  /\ generateQR exampleEmptyAccount = Throw (LengthOutOfRange 0).
Proof.
  split; [reflexivity|]. split; [reflexivity|].
  destruct (getMerchantAccountInfo_rejects exampleEmptyAccount (str "970407")
              [] eq_refl eq_refl) as (E & _).
  apply E. left. simpl. lia.
Defined.

(** X3. A STATIC instance with string bank BIN and account number yields a
    payload exactly when the account number is non-empty and the two
    together have at most 61 characters; the payload then starts with
    "000201010211" and has 75 characters more than the two together. *)
Theorem static_payload (this : QRGeneration) (bin acc : jsstring) :
  initType this = Str (str "STATIC") ->
  bankBin this = Str bin -> accNo this = Str acc ->
  let lb := Z.of_nat (List.length bin) in
  let la := Z.of_nat (List.length acc) in
  ((exists P, generateQR this = Ok P) <-> 1 <= la /\ lb + la <= 61)
  /\ (forall P, generateQR this = Ok P ->
       firstn 12 P = str "000201010211"
       /\ Z.of_nat (List.length P) = 75 + lb + la).
Proof.
  intros HS Hb Ha. cbv zeta.
  assert (A : getTransactionAmount this = Ok [])
    by (unfold getTransactionAmount; now rewrite HS).
  assert (D : getAdditionalData this = Ok [])
    by (unfold getAdditionalData; now rewrite HS).
  assert (I : getPointOfInitiation this = str "010211")
    by (unfold getPointOfInitiation; now rewrite HS).
  destruct (merchantAccountInfo_errors this bin acc Hb Ha) as (E1 & E2 & E3).
  cbv zeta in E1, E2, E3.
  assert (Bad : Z.of_nat (List.length acc) < 1
                \/ 61 < Z.of_nat (List.length bin)
                        + Z.of_nat (List.length acc) ->
                exists e, getMerchantAccountInfo this = Throw e).
  { intros B.
    destruct (Z.ltb_spec (Z.of_nat (List.length acc)) 1);
      [eexists; apply E1; lia|].
    destruct (Z.ltb_spec 99 (Z.of_nat (List.length acc)));
      [eexists; apply E1; lia|].
    destruct (Z.ltb_spec 91 (Z.of_nat (List.length bin)
                             + Z.of_nat (List.length acc)));
      [eexists; apply E2; lia | eexists; apply E3; lia]. }
  split; [split|].
  - intros [P H].
    destruct (Z.ltb_spec (Z.of_nat (List.length acc)) 1) as [L|L];
      [|destruct (Z.ltb_spec 61 (Z.of_nat (List.length bin)
                                 + Z.of_nat (List.length acc))) as [L'|L'];
        [|lia]];
      (destruct Bad as [e B]; [lia|];
       apply generateQR_throws_merchant in B; destruct B as [B _];
       congruence).
  - intros [L1 L2]. unfold generateQR, bind.
    rewrite (merchantAccountInfo_ok this bin acc Hb Ha L1 L2), A, D.
    eexists. reflexivity.
  - intros P H.
    destruct (Z.ltb_spec (Z.of_nat (List.length acc)) 1) as [L|L];
      [destruct Bad as [e B]; [lia|];
       apply generateQR_throws_merchant in B; destruct B as [B _];
       congruence|].
    destruct (Z.ltb_spec 61 (Z.of_nat (List.length bin)
                             + Z.of_nat (List.length acc))) as [L'|L'];
      [destruct Bad as [e B]; [lia|];
       apply generateQR_throws_merchant in B; destruct B as [B _];
       congruence|].
    unfold generateQR, bind in H.
    rewrite (merchantAccountInfo_ok this bin acc Hb Ha L L'), A, D, I in H.
    cbv zeta in H. unfold_all_constants.
    match type of H with
    | Ok ?x = Ok _ => assert (E : P = x) by congruence
    end.
    rewrite E. split; [reflexivity|].
    list_len. rewrite calculateCRC16_length, getServiceType_length.
    cbn [List.length]. lia.
Qed.

Lemma static_payload_witness :
  initType exampleStatic = Str (str "STATIC")
  /\ bankBin exampleStatic = Str (str "970407")
  /\ accNo exampleStatic = Str (str "2543663452")
  /\ exists P, generateQR exampleStatic = Ok P.
Proof.
  repeat (split; [reflexivity|]).
  apply (static_payload exampleStatic (str "970407") (str "2543663452")
           eq_refl eq_refl eq_refl).
  simpl. lia.
Defined.

Lemma merchantAccountInfo_depends (a b : QRGeneration) :
  bankBin a = bankBin b -> accNo a = accNo b ->
  truthy (isAccount a) = truthy (isAccount b) ->
  getMerchantAccountInfo a = getMerchantAccountInfo b.
Proof.
  intros Hb Ha Hi.
  unfold getMerchantAccountInfo, getMerchantInfo, getServiceType.
  now rewrite Hb, Ha, Hi.
Qed.

(** X4. Two STATIC instances with the same bank BIN, the same account
    number and the same choice of account or card yield the same result,
    whatever their amounts, descriptions and bill numbers. *)
Theorem static_ignores_dynamic_fields (a b : QRGeneration) :
  initType a = Str (str "STATIC") -> initType b = Str (str "STATIC") ->
  bankBin a = bankBin b -> accNo a = accNo b ->
  truthy (isAccount a) = truthy (isAccount b) ->
  generateQR a = generateQR b.
Proof.
  intros Sa Sb Hb Ha Hi.
  unfold generateQR, getPointOfInitiation, getTransactionAmount,
    getAdditionalData.
  rewrite (merchantAccountInfo_depends a b Hb Ha Hi), Sa, Sb.
  reflexivity.
Qed.

Lemma static_ignores_dynamic_fields_witness :
  generateQR (mkQRGeneration (Str (str "970407")) (Str (str "2543663452"))
                (Str (str "STATIC")) (Bool false) (Str (str "50000"))
                (Str (str "Thanh toan")) (str "NAPAS9999"))
  = generateQR exampleStatic.
Proof.
  apply static_ignores_dynamic_fields; reflexivity.
Defined.

(** The additional data of a DYNAMIC instance with a nine-character bill
    number and a string description. *)
Lemma additionalData_cases (this : QRGeneration) (d : jsstring) :
  initType this = Str (str "DYNAMIC") ->
  List.length (billNumber this) = 9%nat ->
  desc this = Str d ->
  let ld := Z.of_nat (List.length d) in
  (1 <= ld <= 82 ->
   getAdditionalData this
   = Ok (str "62" ++ twoDigits (17 + ld) ++ str "0109" ++ billNumber this
         ++ str "08" ++ twoDigits ld ++ d))
  /\ (ld < 1 \/ 99 < ld ->
      getAdditionalData this = Throw (LengthOutOfRange ld))
  /\ (82 < ld <= 99 ->
      getAdditionalData this = Throw (LengthOutOfRange (17 + ld))).
Proof.
  intros HD HB Hd. cbv zeta.
  assert (B : buildTLV (str "01") (Str (billNumber this))
              = Ok (str "0109" ++ billNumber this)).
  { rewrite buildTLV_in_range by (rewrite HB; simpl; lia).
    now rewrite HB. }
  assert (L : forall n,
             Z.of_nat (List.length ((str "0109" ++ billNumber this)
                                    ++ str "08" ++ twoDigits n ++ d))
             = 17 + Z.of_nat (List.length d)).
  { intros n. list_len. rewrite HB. lia. }
  unfold getAdditionalData, bind. unfold_all_constants.
  rewrite HD, Hd, B. cbn [strictEq].
  rewrite (proj2 (string_eqb_eq _ _) eq_refl). cbn [negb].
  repeat apply conj; intros R.
  - rewrite buildTLV_in_range by lia.
    rewrite buildTLV_in_range by (rewrite L; lia).
    rewrite L. now rewrite <- !app_assoc.
  - now rewrite buildTLV_out_of_range by lia.
  - rewrite buildTLV_in_range by lia.
    rewrite buildTLV_out_of_range by (rewrite L; lia).
    now rewrite L.
Qed.

(** X5. In a DYNAMIC instance with a nine-character bill number (as the
    constructor makes it) and a string description of 1 to 82 characters,
    the additional data is the TLV "62" of the bill number TLV "0109..."
    followed by the description TLV "08"; its length field is 17 more than
    the description's length. *)
Theorem getAdditionalData_layout (this : QRGeneration) (d : jsstring) :
  initType this = Str (str "DYNAMIC") ->
  List.length (billNumber this) = 9%nat ->
  desc this = Str d ->
  1 <= Z.of_nat (List.length d) <= 82 ->
  exists data,
    getAdditionalData this = Ok data
    /\ data = str "62" ++ twoDigits (17 + Z.of_nat (List.length d))
              ++ str "0109" ++ billNumber this
              ++ str "08" ++ twoDigits (Z.of_nat (List.length d)) ++ d
    /\ Z.of_nat (List.length data) = 21 + Z.of_nat (List.length d).
Proof.
  intros HD HB Hd R.
  destruct (additionalData_cases this d HD HB Hd) as (E & _).
  eexists. split; [apply E, R|]. split; [reflexivity|].
  list_len. rewrite HB. lia.
Qed.

Lemma getAdditionalData_layout_witness :
  initType exampleDynamic = Str (str "DYNAMIC")
  /\ List.length (billNumber exampleDynamic) = 9%nat
  /\ desc exampleDynamic = Str (str "Thanh toan")
  /\ getAdditionalData exampleDynamic
     = Ok (str "62270109NAPAS00420810Thanh toan").
Proof.
  repeat (split; [reflexivity|]).
  destruct (getAdditionalData_layout exampleDynamic (str "Thanh toan")
              eq_refl eq_refl eq_refl) as (data & H & E & _);
    [simpl; lia|].
  rewrite H, E. reflexivity.
Defined.

(** X6. In such an instance a description of 83 to 99 characters, within
    the documented range, is rejected: the wrapped block would exceed 99
    characters, and the error names 17 more than the description's length;
    a description above 99 characters is rejected under its own length.
    [generateQR] yields no payload in either case. *)
Theorem long_description_rejected
  (this : QRGeneration) (d : jsstring) (P : jsstring) :
  initType this = Str (str "DYNAMIC") ->
  List.length (billNumber this) = 9%nat ->
  desc this = Str d ->
  let ld := Z.of_nat (List.length d) in
  (82 < ld <= 99 ->
   getAdditionalData this = Throw (LengthOutOfRange (17 + ld))
   /\ generateQR this <> Ok P)
  /\ (99 < ld ->
      getAdditionalData this = Throw (LengthOutOfRange ld)
      /\ generateQR this <> Ok P).
Proof.
  intros HD HB Hd. cbv zeta.
  destruct (additionalData_cases this d HD HB Hd) as (_ & E1 & E2).
  cbv zeta in E1, E2.
  assert (G : forall e, getAdditionalData this = Throw e ->
                        generateQR this <> Ok P).
  { intros e A H. unfold generateQR, bind in H. rewrite A in H.
    destruct (getMerchantAccountInfo this); [|discriminate].
    destruct (getTransactionAmount this); discriminate. }
  split; intros R; (split; [|eapply G]); auto.
Qed.

Lemma long_description_rejected_witness :
  getAdditionalData
    (mkQRGeneration (Str (str "970407")) (Str (str "2543663452"))
       (Str (str "DYNAMIC")) (Bool true) (Str (str "50000"))
       (Str (repeat 65 83)) (str "NAPAS0042"))
  = Throw (LengthOutOfRange 100).
Proof.
  refine (proj1 (proj1 (long_description_rejected
    (mkQRGeneration (Str (str "970407")) (Str (str "2543663452"))
       (Str (str "DYNAMIC")) (Bool true) (Str (str "50000"))
       (Str (repeat 65 83)) (str "NAPAS0042"))
    (repeat 65 83) [] eq_refl eq_refl eq_refl) _)).
  simpl. lia.
Defined.

(** X7. Arguments left out.  Without an account number every call of
    [generateQR] and [getComponents] throws a TypeError; a DYNAMIC
    instance without a description throws a TypeError once its bill number
    is framed; a bank BIN left out is not rejected: the text "undefined"
    takes its place in the merchant info. *)
Theorem omitted_arguments (this : QRGeneration) :
  (accNo this = Undefined ->
   generateQR this = Throw TypeError /\ getComponents this = Throw TypeError)
  /\ (initType this = Str (str "DYNAMIC") -> desc this = Undefined ->
      1 <= Z.of_nat (List.length (billNumber this)) <= 99 ->
      getAdditionalData this = Throw TypeError)
  /\ (forall acc,
        bankBin this = Undefined -> accNo this = Str acc ->
        1 <= Z.of_nat (List.length acc) <= 99 ->
        getMerchantInfo this
        = Ok (str "0006undefined01"
              ++ twoDigits (Z.of_nat (List.length acc)) ++ acc)).
Proof.
  repeat apply conj.
  - intros H. apply generateQR_throws_merchant.
    unfold getMerchantAccountInfo, getMerchantInfo, buildTLV, formatLength,
      bind. now rewrite H.
  - intros HD Hd L. unfold getAdditionalData, bind. unfold_all_constants.
    rewrite HD, Hd, buildTLV_in_range by lia. reflexivity.
  - intros acc Hb Ha L. unfold getMerchantInfo, bind. unfold_all_constants.
    rewrite Hb, Ha, buildTLV_in_range by lia. reflexivity.
Qed.

Lemma omitted_arguments_witness :
  generateQR (mkQRGeneration (Str (str "970407")) Undefined
                (Str (str "STATIC")) Undefined Undefined Undefined
                (str "NAPAS0042"))
  = Throw TypeError.
Proof.
  apply (omitted_arguments
           (mkQRGeneration (Str (str "970407")) Undefined
              (Str (str "STATIC")) Undefined Undefined Undefined
              (str "NAPAS0042"))).
  reflexivity.
Defined.

Lemma app_inj_length {A} (a b x y : list A) :
  List.length a = List.length b -> a ++ x = b ++ y -> a = b /\ x = y.
Proof.
  revert b. induction a as [|h a IH]; intros [|k b] L H;
    try discriminate; [now split|].
  injection L as L. injection H as -> H.
  destruct (IH b L H) as [-> ->]. now split.
Qed.

Lemma twoDigits_inj (a b : Z) :
  twoDigits a = twoDigits b -> a = b.
Proof.
  unfold twoDigits, decimalDigit. intros H.
  assert (H1 : 48 + a / 10 = 48 + b / 10)
    by exact (f_equal (fun l => nth 0 l 0) H).
  assert (H2 : 48 + a mod 10 = 48 + b mod 10)
    by exact (f_equal (fun l => nth 1 l 0) H).
  pose proof (Z.div_mod a 10 ltac:(lia)).
  pose proof (Z.div_mod b 10 ltac:(lia)). lia.
Qed.

Lemma buildTLV_Ok_inv (id s tlv : jsstring) :
  buildTLV id (Str s) = Ok tlv ->
  tlv = id ++ twoDigits (Z.of_nat (List.length s)) ++ s.
Proof.
  intros H.
  destruct (Z.ltb_spec (Z.of_nat (List.length s)) 1) as [L1|L1];
    [rewrite buildTLV_out_of_range in H by lia; discriminate|].
  destruct (Z.ltb_spec 99 (Z.of_nat (List.length s))) as [L2|L2];
    [rewrite buildTLV_out_of_range in H by lia; discriminate|].
  rewrite buildTLV_in_range in H by lia. congruence.
Qed.

(** X8. TLV segments are self-delimiting: when two segments built with
    tags of the same length, each followed by any text, give the same
    string, then the tags, the values and the following texts are the
    same. *)
Theorem buildTLV_self_delimiting
  (tag1 tag2 value1 value2 tlv1 tlv2 rest1 rest2 : jsstring) :
  List.length tag1 = List.length tag2 ->
  buildTLV tag1 (Str value1) = Ok tlv1 ->
  buildTLV tag2 (Str value2) = Ok tlv2 ->
  tlv1 ++ rest1 = tlv2 ++ rest2 ->
  tag1 = tag2 /\ value1 = value2 /\ rest1 = rest2.
Proof.
  intros LT H1 H2 E.
  apply buildTLV_Ok_inv in H1, H2. subst tlv1 tlv2.
  rewrite <- !app_assoc in E.
  apply app_inj_length in E; [|exact LT]. destruct E as [-> E].
  apply app_inj_length in E; [|reflexivity]. destruct E as [D E].
  apply twoDigits_inj, Nat2Z.inj in D.
  apply app_inj_length in E; [|exact D]. destruct E as [-> ->].
  now repeat split.
Qed.

Lemma buildTLV_self_delimiting_witness :
  buildTLV (str "01") (Str (str "AB")) = Ok (str "0102AB")
  /\ str "0102AB" ++ str "0801C" = str "0102AB" ++ str "0801C"
  /\ str "01" = str "01" /\ str "AB" = str "AB" /\ str "0801C" = str "0801C".
Proof.
  assert (H : buildTLV (str "01") (Str (str "AB")) = Ok (str "0102AB"))
    by (vm_compute; reflexivity).
  split; [exact H|]. split; [reflexivity|].
  exact (buildTLV_self_delimiting (str "01") (str "01") (str "AB") (str "AB")
           (str "0102AB") (str "0102AB") (str "0801C") (str "0801C")
           eq_refl H H eq_refl).
Defined.

(** ** What the checksum reads and what it detects *)

Lemma mod8_testbit (a b m : Z) :
  a mod 2 ^ 8 = b mod 2 ^ 8 -> m < 8 -> Z.testbit a m = Z.testbit b m.
Proof.
  intros H Hm.
  rewrite <- (Z.mod_pow2_bits_low a 8 m), H by lia.
  apply Z.mod_pow2_bits_low. lia.
Qed.

Lemma mod8_ext (a b : Z) :
  (forall n, 0 <= n < 8 -> Z.testbit a n = Z.testbit b n) ->
  a mod 2 ^ 8 = b mod 2 ^ 8.
Proof.
  intros H. apply Z.bits_inj'. intros n Hn.
  destruct (Z.lt_ge_cases n 8).
  - rewrite !Z.mod_pow2_bits_low by lia. apply H. lia.
  - now rewrite !Z.mod_pow2_bits_high by lia.
Qed.

(** One character changes the register by its code modulo 256 only. *)
Lemma crcChar_spec_low8 (crc c1 c2 : Z) :
  c1 mod 2 ^ 8 = c2 mod 2 ^ 8 -> crcChar_spec crc c1 = crcChar_spec crc c2.
Proof.
  intros H. unfold crcChar_spec. rewrite !(Nat.iter_succ_r 7). f_equal.
  apply crcShift_spec_low16, mod16_ext. intros n Hn.
  rewrite !Z.lxor_spec, !Z.shiftl_spec by lia.
  now rewrite (mod8_testbit c1 c2 (n - 8) H) by lia.
Qed.

Lemma crc16_spec_low8 (codes1 codes2 : list Z) :
  map (fun c => c mod 2 ^ 8) codes1 = map (fun c => c mod 2 ^ 8) codes2 ->
  crc16_spec codes1 = crc16_spec codes2.
Proof.
  unfold crc16_spec. generalize 0xFFFF at 1 2.
  revert codes2. induction codes1 as [|c1 l1 IH]; intros [|c2 l2] a H;
    try discriminate; [reflexivity|].
  injection H as Hc Hl. cbn [fold_left].
  rewrite (crcChar_spec_low8 a c1 c2 Hc). now apply IH.
Qed.

(** X9. The checksum reads only the low 8 bits of each char code: two
    strings whose characters have the same codes modulo 256 have the same
    checksum. *)
Theorem calculateCRC16_low_byte (data1 data2 : jsstring) :
  map (fun c => c mod 256) (charCodes data1)
  = map (fun c => c mod 256) (charCodes data2) ->
  calculateCRC16 data1 = calculateCRC16 data2.
Proof.
  intros H. rewrite !calculateCRC16_hex4. f_equal.
  now apply crc16_spec_low8.
Qed.

Lemma calculateCRC16_low_byte_witness :
  map (fun c => c mod 256) (charCodes [0x141]) 
  = map (fun c => c mod 256) (charCodes (str "A"))
  /\ calculateCRC16 [0x141] = calculateCRC16 (str "A").
Proof.
  split; [reflexivity|].
  apply calculateCRC16_low_byte. reflexivity.
Defined.

(** The shift is injective on the low 16 bits: bit 0 of its result is the
    bit 15 it tested, and the bits above are the shifted register. *)
Lemma crcShift_spec_inj (a b : Z) :
  crcShift_spec a = crcShift_spec b -> a mod 2 ^ 16 = b mod 2 ^ 16.
Proof.
  unfold crcShift_spec. rewrite !land_FFFF. intros H.
  assert (B : forall n, 0 <= n < 16 ->
     Z.testbit (if Z.testbit a 15 then Z.lxor (Z.shiftl a 1) 0x1021
                else Z.shiftl a 1) n
     = Z.testbit (if Z.testbit b 15 then Z.lxor (Z.shiftl b 1) 0x1021
                  else Z.shiftl b 1) n)
    by (intros n Hn; apply (mod16_testbit _ _ n H); lia).
  assert (T : Z.testbit a 15 = Z.testbit b 15).
  { specialize (B 0 ltac:(lia)).
    destruct (Z.testbit a 15), (Z.testbit b 15); try reflexivity;
      rewrite ?Z.lxor_spec, !Z.shiftl_spec, !Z.testbit_neg_r in B by lia;
      discriminate B. }
  apply mod16_ext. intros n Hn.
  destruct (Z.eq_dec n 15) as [->|Hne]; [exact T|].
  specialize (B (n + 1) ltac:(lia)). rewrite <- T in B.
  destruct (Z.testbit a 15);
    rewrite ?Z.lxor_spec, !Z.shiftl_spec in B by lia;
    replace (n + 1 - 1) with n in B by lia.
  - destruct (Z.testbit a n), (Z.testbit b n), (Z.testbit 0x1021 (n + 1));
      simpl in B; congruence.
  - exact B.
Qed.

Lemma iter_crcShift_spec_inj (n : nat) (a b : Z) :
  Nat.iter n crcShift_spec a = Nat.iter n crcShift_spec b ->
  a mod 2 ^ 16 = b mod 2 ^ 16.
Proof.
  revert a b. induction n as [|n IH]; intros a b H.
  - simpl in H. now subst.
  - rewrite !Nat.iter_succ_r in H. apply IH in H.
    apply crcShift_spec_inj.
    pose proof (crcShift_spec_range a). pose proof (crcShift_spec_range b).
    rewrite !Z.mod_small in H by lia. exact H.
Qed.

(** For a given character the new register determines the old one ... *)
Lemma crcChar_spec_inj_state (s1 s2 c : Z) :
  0 <= s1 < 65536 -> 0 <= s2 < 65536 ->
  crcChar_spec s1 c = crcChar_spec s2 c -> s1 = s2.
Proof.
  intros R1 R2 H. apply iter_crcShift_spec_inj in H.
  rewrite <- (Z.mod_small s1 (2 ^ 16)), <- (Z.mod_small s2 (2 ^ 16)) by lia.
  apply mod16_ext. intros n Hn.
  pose proof (mod16_testbit _ _ n H ltac:(lia)) as B.
  rewrite !Z.lxor_spec in B.
  destruct (Z.testbit s1 n), (Z.testbit s2 n),
    (Z.testbit (Z.shiftl c 8) n); simpl in B; congruence.
Qed.

(** ... and for a given register it determines the character's code
    modulo 256. *)
Lemma crcChar_spec_inj_code (s c1 c2 : Z) :
  crcChar_spec s c1 = crcChar_spec s c2 -> c1 mod 2 ^ 8 = c2 mod 2 ^ 8.
Proof.
  intros H. apply iter_crcShift_spec_inj in H.
  apply mod8_ext. intros n Hn.
  pose proof (mod16_testbit _ _ (n + 8) H ltac:(lia)) as B.
  rewrite !Z.lxor_spec, !Z.shiftl_spec in B by lia.
  replace (n + 8 - 8) with n in B by lia.
  destruct (Z.testbit s (n + 8)), (Z.testbit c1 n), (Z.testbit c2 n);
    simpl in B; congruence.
Qed.

Lemma fold_crcChar_spec_range (codes : list Z) (s : Z) :
  0 <= s < 65536 -> 0 <= fold_left crcChar_spec codes s < 65536.
Proof.
  revert s. induction codes as [|c l IH]; intros s R; cbn [fold_left];
    [exact R | apply IH, crcChar_spec_range].
Qed.

Lemma fold_crcChar_spec_inj (codes : list Z) (s1 s2 : Z) :
  0 <= s1 < 65536 -> 0 <= s2 < 65536 ->
  fold_left crcChar_spec codes s1 = fold_left crcChar_spec codes s2 ->
  s1 = s2.
Proof.
  revert s1 s2. induction codes as [|c l IH]; intros s1 s2 R1 R2 H;
    cbn [fold_left] in H; [exact H|].
  apply IH in H; try apply crcChar_spec_range.
  now apply crcChar_spec_inj_state in H.
Qed.

Lemma upperHex_formula (d : Z) :
  0 <= d < 16 -> upperHex d = if d <? 10 then 48 + d else 55 + d.
Proof.
  intros H.
  assert (C : d = 0 \/ d = 1 \/ d = 2 \/ d = 3 \/ d = 4 \/ d = 5 \/ d = 6
              \/ d = 7 \/ d = 8 \/ d = 9 \/ d = 10 \/ d = 11 \/ d = 12
              \/ d = 13 \/ d = 14 \/ d = 15) by lia.
  repeat (destruct C as [->|C]; [reflexivity|]). now subst.
Qed.

Lemma upperHex_inj (d e : Z) :
  0 <= d < 16 -> 0 <= e < 16 -> upperHex d = upperHex e -> d = e.
Proof.
  intros Hd He. rewrite !upperHex_formula by lia.
  destruct (Z.ltb_spec d 10), (Z.ltb_spec e 10); lia.
Qed.

Lemma hex4_inj (a b : Z) :
  0 <= a < 65536 -> 0 <= b < 65536 -> hex4 a = hex4 b -> a = b.
Proof.
  intros Ra Rb H. unfold hex4 in H.
  assert (D : forall v, 0 <= v < 65536 ->
     0 <= v / 4096 < 16
     /\ v = 4096 * (v / 4096) + 256 * (v / 256 mod 16)
            + 16 * (v / 16 mod 16) + v mod 16).
  { intros v R. split;
      [split; [apply Z.div_pos | apply Z.div_lt_upper_bound]; lia|].
    pose proof (Z.div_mod v 16 ltac:(lia)).
    pose proof (Z.div_mod (v / 16) 16 ltac:(lia)) as H2.
    pose proof (Z.div_mod (v / 256) 16 ltac:(lia)) as H3.
    rewrite Z.div_div in H2, H3 by lia.
    change (16 * 16) with 256 in H2. change (256 * 16) with 4096 in H3.
    lia. }
  destruct (D a Ra) as [Qa Ea], (D b Rb) as [Qb Eb].
  pose proof (Z.mod_pos_bound (a / 256) 16 ltac:(lia)).
  pose proof (Z.mod_pos_bound (a / 16) 16 ltac:(lia)).
  pose proof (Z.mod_pos_bound a 16 ltac:(lia)).
  pose proof (Z.mod_pos_bound (b / 256) 16 ltac:(lia)).
  pose proof (Z.mod_pos_bound (b / 16) 16 ltac:(lia)).
  pose proof (Z.mod_pos_bound b 16 ltac:(lia)).
  assert (X3 := f_equal (fun l => nth 0 l 0) H).
  assert (X2 := f_equal (fun l => nth 1 l 0) H).
  assert (X1 := f_equal (fun l => nth 2 l 0) H).
  assert (X0 := f_equal (fun l => nth 3 l 0) H).
  cbn [nth] in X3, X2, X1, X0.
  apply upperHex_inj in X3, X2, X1, X0; lia.
Qed.

(** X10. The checksum detects the change of one character: when the char
    codes read from two strings are the same except at one position, where
    they differ modulo 256, the two checksums differ. *)
Theorem calculateCRC16_detects_substitution
  (data1 data2 : jsstring) (before after : list Z) (c1 c2 : Z) :
  charCodes data1 = before ++ c1 :: after ->
  charCodes data2 = before ++ c2 :: after ->
  c1 mod 256 <> c2 mod 256 ->
  calculateCRC16 data1 <> calculateCRC16 data2.
Proof.
  intros E1 E2 N H. rewrite !calculateCRC16_hex4 in H.
  apply hex4_inj in H; try apply crc16_spec_range.
  rewrite E1, E2 in H. unfold crc16_spec in H.
  rewrite !fold_left_app in H. cbn [fold_left] in H.
  apply fold_crcChar_spec_inj in H; try apply crcChar_spec_range.
  apply crcChar_spec_inj_code in H. exact (N H).
Qed.

Lemma calculateCRC16_detects_substitution_witness :
  charCodes (str "5802VN") = str "5802" ++ 86 :: str "N"
  /\ charCodes (str "5802UN") = str "5802" ++ 85 :: str "N"
  /\ 86 mod 256 <> 85 mod 256
  /\ calculateCRC16 (str "5802VN") <> calculateCRC16 (str "5802UN").
Proof.
  assert (N : 86 mod 256 <> 85 mod 256) by (vm_compute; discriminate).
  split; [reflexivity|]. split; [reflexivity|]. split; [exact N|].
  exact (calculateCRC16_detects_substitution (str "5802VN") (str "5802UN")
           (str "5802") (str "N") 86 85 eq_refl eq_refl N).
Defined.

(** ** The constructor *)

Lemma upperUnit_idempotent (c : Z) : upperUnit (upperUnit c) = upperUnit c.
Proof.
  unfold upperUnit.
  destruct ((97 <=? c) && (c <=? 122)) eqn:E; [|now rewrite E].
  apply andb_true_iff in E. destruct E as [E1 E2].
  apply Z.leb_le in E1, E2.
  destruct (Z.leb_spec 97 (c - 32)); [lia | reflexivity].
Qed.

Lemma toUpperCase_idempotent (s : jsstring) :
  toUpperCase (toUpperCase s) = toUpperCase s.
Proof.
  unfold toUpperCase. rewrite map_map. apply map_ext, upperUnit_idempotent.
Qed.

Lemma toUpperCase_nil (s : jsstring) : toUpperCase s = [] <-> s = [].
Proof. destruct s; simpl; split; congruence. Qed.

Lemma toUpperCase_ascii (s : jsstring) : isAscii s -> isAscii (toUpperCase s).
Proof.
  unfold isAscii, toUpperCase. intros H. apply Forall_map.
  apply Forall_impl with (2 := H). intros c R. unfold upperUnit.
  destruct ((97 <=? c) && (c <=? 122)) eqn:E; [|exact R].
  apply andb_true_iff in E. destruct E as [E1 E2].
  apply Z.leb_le in E1, E2. lia.
Qed.

(** X11. On ASCII strings, where the model's upper-casing is that of the
    code, the initiation type is case-insensitive and defaults to STATIC:
    an ASCII string and its upper-case form build the same instance, and a
    non-empty one is stored upper-cased; no argument and the empty string
    build the instance that "STATIC" builds; a boolean makes the
    constructor throw a TypeError.  The [initType] of every instance built
    from no argument or an ASCII string is a non-empty ASCII string that
    upper-casing leaves as it is, and the other arguments are stored
    unchanged. *)
Theorem constructor_initType
  (randomInt : Z -> Z) (bin acc isAcc amt dsc : jsval)
  (s : jsstring) (b : bool) :
  (isAscii s ->
   constructor randomInt bin acc (Str s) isAcc amt dsc
   = constructor randomInt bin acc (Str (toUpperCase s)) isAcc amt dsc
   /\ (s <> [] ->
       forall this,
         constructor randomInt bin acc (Str s) isAcc amt dsc = Ok this ->
         initType this = Str (toUpperCase s)))
  /\ constructor randomInt bin acc Undefined isAcc amt dsc
     = constructor randomInt bin acc (Str (str "STATIC")) isAcc amt dsc
  /\ constructor randomInt bin acc (Str []) isAcc amt dsc
     = constructor randomInt bin acc (Str (str "STATIC")) isAcc amt dsc
  /\ constructor randomInt bin acc (Bool b) isAcc amt dsc = Throw TypeError
  /\ (forall init this,
        (forall u, init = Str u -> isAscii u) ->
        constructor randomInt bin acc init isAcc amt dsc = Ok this ->
        (exists u, initType this = Str u /\ u <> [] /\ isAscii u
                   /\ toUpperCase u = u)
        /\ bankBin this = bin /\ accNo this = acc /\ isAccount this = isAcc
        /\ amount this = amt /\ desc this = dsc).
Proof.
  assert (St : isAscii (str "STATIC"))
    by (repeat constructor; cbn; lia).
  repeat apply conj; try reflexivity.
  - intros _. split.
    + unfold constructor, optionalToUpperCase, bind.
      now rewrite toUpperCase_idempotent.
    + intros N this H. unfold constructor, optionalToUpperCase, bind in H.
      assert (T : truthy (Str (toUpperCase s)) = true)
        by (apply truthy_Str; intros E; apply N; now apply toUpperCase_nil).
      rewrite T in H. now injection H as <-.
  - intros init this A H. unfold constructor, bind in H.
    destruct init as [|x|u]; cbn [optionalToUpperCase] in H;
      [|discriminate|].
    + injection H as <-. cbn. repeat split.
      exists (str "STATIC"). repeat split; [discriminate | exact St].
    + unfold bind in H.
      destruct (truthy (Str (toUpperCase u))) eqn:T;
        injection H as <-;
        cbn [bankBin accNo isAccount amount desc initType]; repeat split.
      * exists (toUpperCase u). repeat split.
        -- now apply truthy_Str.
        -- apply toUpperCase_ascii, A. reflexivity.
        -- apply toUpperCase_idempotent.
      * exists (str "STATIC"). repeat split; [discriminate | exact St].
Qed.

Lemma constructor_initType_witness :
  isAscii (str "dynamic")
  /\ constructor (drawn 42) (Str (str "970407")) (Str (str "2543663452"))
       (Str (str "dynamic")) (Bool true) (Str (str "50000"))
       (Str (str "Thanh toan")) = Ok exampleDynamic
  /\ initType exampleDynamic = Str (toUpperCase (str "dynamic")).
Proof.
  assert (A : isAscii (str "dynamic")) by (repeat constructor; cbn; lia).
  assert (H : constructor (drawn 42) (Str (str "970407"))
                (Str (str "2543663452")) (Str (str "dynamic")) (Bool true)
                (Str (str "50000")) (Str (str "Thanh toan"))
              = Ok exampleDynamic) by (vm_compute; reflexivity).
  split; [exact A|]. split; [exact H|].
  destruct (constructor_initType (drawn 42) (Str (str "970407"))
              (Str (str "2543663452")) (Bool true) (Str (str "50000"))
              (Str (str "Thanh toan")) (str "dynamic") true) as (I & _).
  apply (proj2 (I A)); [discriminate | exact H].
Defined.

(** ** The payload as a sequence of TLV segments *)

Lemma getMerchantAccountInfo_isTLV (this : QRGeneration) (m : jsstring) :
  getMerchantAccountInfo this = Ok m -> isTLV (str "38") m.
Proof.
  unfold getMerchantAccountInfo, bind. unfold_all_constants.
  destruct (getMerchantInfo this); [|discriminate].
  destruct (formatLength _); [|discriminate].
  intros H. eexists. exact H.
Qed.

Lemma toStringMethod_toStr (v : jsval) (s : jsstring) :
  toStringMethod v = Ok s -> toStr v = s.
Proof. destruct v; simpl; congruence. Qed.

Lemma buildTLV_toStr (id : jsstring) (v : jsval) (tlv : jsstring) :
  buildTLV id v = Ok tlv -> buildTLV id (Str (toStr v)) = Ok tlv.
Proof.
  unfold buildTLV, formatLength, bind.
  destruct (toStringMethod v) as [s|] eqn:E; [|discriminate].
  apply toStringMethod_toStr in E. rewrite E. cbn [toStringMethod toStr].
  auto.
Qed.

Lemma getTransactionAmount_isTLV (this : QRGeneration) (a : jsstring) :
  getTransactionAmount this = Ok a -> a = [] \/ isTLV (str "54") a.
Proof.
  unfold getTransactionAmount. unfold_all_constants.
  destruct (_ && _); [|left; congruence].
  intros H. right. eexists. apply buildTLV_toStr, H.
Qed.

Lemma getAdditionalData_isTLV (this : QRGeneration) (d : jsstring) :
  getAdditionalData this = Ok d -> d = [] \/ isTLV (str "62") d.
Proof.
  unfold getAdditionalData, bind. unfold_all_constants.
  destruct (negb _); [left; congruence|].
  destruct (buildTLV (str "01") _); [|discriminate].
  destruct (buildTLV (str "08") _); [|discriminate].
  intros H. right. eexists. exact H.
Qed.

(** X12. Every payload is a sequence of well-formed TLV segments: the
    fixed fields are the segments of tags "00" (value "01"), "01" ("11" or
    "12"), "53" ("704") and "58" ("VN"); the merchant account info is a
    segment of tag "38"; the amount and the additional data are segments
    of tags "54" and "62" or absent; and the trailer is the segment of tag
    "63" whose value is the checksum of all that precedes it and of its own
    tag and length. *)
Theorem payload_is_TLV_sequence (this : QRGeneration) (P : jsstring) :
  generateQR this = Ok P ->
  exists t00 t01 t38 t54 t62 t53 t58 t63 crc,
    P = t00 ++ t01 ++ t38 ++ t53 ++ t54 ++ t58 ++ t62 ++ t63
    /\ buildTLV (str "00") (Str (str "01")) = Ok t00
    /\ (buildTLV (str "01") (Str (str "11")) = Ok t01
        \/ buildTLV (str "01") (Str (str "12")) = Ok t01)
    /\ isTLV (str "38") t38
    /\ buildTLV (str "53") (Str (str "704")) = Ok t53
    /\ (t54 = [] \/ isTLV (str "54") t54)
    /\ buildTLV (str "58") (Str (str "VN")) = Ok t58
    /\ (t62 = [] \/ isTLV (str "62") t62)
    /\ buildTLV (str "63") (Str crc) = Ok t63
    /\ crc = calculateCRC16
               (t00 ++ t01 ++ t38 ++ t53 ++ t54 ++ t58 ++ t62 ++ str "6304").
Proof.
  intros H. unfold generateQR, bind in H.
  destruct (getMerchantAccountInfo this) as [m|] eqn:M; [|discriminate].
  destruct (getTransactionAmount this) as [a|] eqn:A; [|discriminate].
  destruct (getAdditionalData this) as [d|] eqn:D; [|discriminate].
  cbv zeta in H. unfold_all_constants.
  match type of H with
  | Ok (?q ++ _) = _ => set (qrData := q) in *
  end.
  set (crc := calculateCRC16 qrData) in *.
  assert (E : P = qrData ++ crc) by congruence.
  exists (str "000201"), (getPointOfInitiation this), m, a, d,
    (str "5303704"), (str "5802VN"), (str "6304" ++ crc), crc.
  repeat apply conj.
  - rewrite E. unfold qrData. now rewrite <- !app_assoc.
  - vm_compute. reflexivity.
  - unfold getPointOfInitiation. unfold_all_constants.
    destruct (strictEq _ _); [left | right]; vm_compute; reflexivity.
  - now apply getMerchantAccountInfo_isTLV in M.
  - vm_compute. reflexivity.
  - now apply getTransactionAmount_isTLV in A.
  - vm_compute. reflexivity.
  - now apply getAdditionalData_isTLV in D.
  - rewrite buildTLV_in_range
      by (unfold crc; rewrite calculateCRC16_length; simpl; lia).
    unfold crc. rewrite calculateCRC16_length. reflexivity.
  - reflexivity.
Qed.

Lemma payload_is_TLV_sequence_witness :
  generateQR exampleStatic =
    Ok (str "00020101021138540010A00000072701240006970407011025436634520208QRIBFTTC53037045802VN6304B887")
  /\ exists t63 crc,
       buildTLV (str "63") (Str crc) = Ok t63
       /\ exists fields,
            str "00020101021138540010A00000072701240006970407011025436634520208QRIBFTTC53037045802VN6304B887"
            = fields ++ t63.
Proof.
  assert (H : generateQR exampleStatic =
              Ok (str "00020101021138540010A00000072701240006970407011025436634520208QRIBFTTC53037045802VN6304B887"))
    by (vm_compute; reflexivity).
  split; [exact H|].
  destruct (payload_is_TLV_sequence exampleStatic _ H)
    as (t00 & t01 & t38 & t54 & t62 & t53 & t58 & t63 & crc & E & _ & _ & _
        & _ & _ & _ & _ & T & _).
  exists t63, crc. split; [exact T|].
  exists (t00 ++ t01 ++ t38 ++ t53 ++ t54 ++ t58 ++ t62).
  rewrite E. now rewrite <- !app_assoc.
Defined.

Lemma acquirer_framing (bin : jsstring) :
  buildTLV (str "00") (Str bin) = Ok (str "0006" ++ bin)
  <-> List.length bin = 6%nat.
Proof.
  split.
  - intros H. apply buildTLV_Ok_inv in H.
    change (str "0006" ++ bin) with (str "00" ++ twoDigits 6 ++ bin) in H.
    apply app_inj_length in H; [|reflexivity]. destruct H as [_ H].
    apply app_inj_length in H; [|reflexivity]. destruct H as [H _].
    apply twoDigits_inj in H. lia.
  - intros L. rewrite buildTLV_in_range by lia. now rewrite L.
Qed.

(** X13. The value wrapped under tag "38" is itself a sequence of TLV
    segments: the GUID under tag "00", the merchant info under tag "01" and
    the service code under tag "02" ("QRIBFTTA" for an account, "QRIBFTTC"
    for a card).  The merchant info is "0006", the bank BIN and the TLV "01"
    of the account number; its head "0006" + BIN is the TLV "00" of the BIN
    exactly when the BIN has six characters. *)
Theorem merchantAccountInfo_nested
  (this : QRGeneration) (bin acc : jsstring) :
  bankBin this = Str bin -> accNo this = Str acc ->
  1 <= Z.of_nat (List.length acc) ->
  Z.of_nat (List.length bin) + Z.of_nat (List.length acc) <= 61 ->
  exists guid org service merchantInfo accTLV,
    getMerchantAccountInfo this
    = buildTLV (str "38") (Str (guid ++ org ++ service))
    /\ buildTLV (str "00") (Str (str "A000000727")) = Ok guid
    /\ buildTLV (str "01") (Str merchantInfo) = Ok org
    /\ service = getServiceType this
    /\ (if truthy (isAccount this)
        then buildTLV (str "02") (Str (str "QRIBFTTA")) = Ok service
        else buildTLV (str "02") (Str (str "QRIBFTTC")) = Ok service)
    /\ merchantInfo = str "0006" ++ bin ++ accTLV
    /\ buildTLV (str "01") (Str acc) = Ok accTLV
    /\ (buildTLV (str "00") (Str bin) = Ok (str "0006" ++ bin)
        <-> List.length bin = 6%nat).
Proof.
  intros Hb Ha L1 L2.
  pose proof (merchantInfo_length bin acc) as M.
  set (mi := str "0006" ++ bin ++ str "01" ++ _ ++ acc) in M.
  exists (str "0010A000000727"),
    (str "01" ++ twoDigits (Z.of_nat (List.length mi)) ++ mi),
    (getServiceType this), mi,
    (str "01" ++ twoDigits (Z.of_nat (List.length acc)) ++ acc).
  repeat apply conj.
  - unfold getMerchantAccountInfo, bind.
    rewrite (getMerchantInfo_layout this bin acc Hb Ha) by lia.
    fold mi. rewrite formatLength_in_range by lia.
    unfold_all_constants. now rewrite <- !app_assoc.
  - vm_compute. reflexivity.
  - apply buildTLV_in_range. lia.
  - reflexivity.
  - unfold getServiceType. unfold_all_constants.
    destruct (truthy (isAccount this)); vm_compute; reflexivity.
  - reflexivity.
  - apply buildTLV_in_range. lia.
  - apply acquirer_framing.
  - apply acquirer_framing.
Qed.

Lemma merchantAccountInfo_nested_witness :
  bankBin exampleStatic = Str (str "970407")
  /\ accNo exampleStatic = Str (str "2543663452")
  /\ exists value,
       getMerchantAccountInfo exampleStatic = buildTLV (str "38") (Str value).
Proof.
  split; [reflexivity|]. split; [reflexivity|].
  destruct (merchantAccountInfo_nested exampleStatic (str "970407")
              (str "2543663452") eq_refl eq_refl)
    as (guid & org & service & _ & _ & H & _); [simpl; lia | simpl; lia |].
  exists (guid ++ org ++ service). exact H.
Defined.

(** ** The CSV utility *)

Lemma split_not_nil (s : jsstring) (sep : Z) : split s sep <> [].
Proof.
  induction s as [|c t IH]; cbn [split]; [discriminate|].
  destruct (c =? sep); [discriminate|].
  destruct (split t sep); [contradiction | discriminate].
Qed.

Lemma split_length (s : jsstring) (sep : Z) :
  List.length (split s sep) = S (count_occ Z.eq_dec s sep).
Proof.
  induction s as [|c t IH]; cbn [split count_occ]; [reflexivity|].
  destruct (Z.eqb_spec c sep) as [->|N].
  - destruct (Z.eq_dec sep sep); [|contradiction]. cbn [List.length].
    now rewrite IH.
  - destruct (Z.eq_dec c sep); [contradiction|].
    pose proof (split_not_nil t sep).
    destruct (split t sep); [contradiction | exact IH].
Qed.

Lemma split_snoc_separator (s : jsstring) (sep : Z) :
  split (s ++ [sep]) sep = split s sep ++ [[]].
Proof.
  induction s as [|c t IH]; cbn [split app].
  - now rewrite Z.eqb_refl.
  - destruct (c =? sep); [now rewrite IH|]. rewrite IH.
    pose proof (split_not_nil t sep).
    destruct (split t sep); [contradiction | reflexivity].
Qed.

Lemma parseMember_short (line : jsstring) :
  (List.length (split line 44) < 7)%nat ->
  CsvFilter.parseMember line = Throw TypeError.
Proof.
  unfold CsvFilter.parseMember. intros H.
  destruct (split line 44) as [|a [|b [|c [|d [|e [|f [|g r]]]]]]];
    cbn [List.length] in H; try lia; reflexivity.
Qed.

Lemma parseMember_ok (line : jsstring) :
  (7 <= List.length (split line 44))%nat ->
  CsvFilter.parseMember line = Ok (CsvFilter.memberOf line).
Proof.
  unfold CsvFilter.parseMember, CsvFilter.memberOf, CsvFilter.fieldOf.
  intros H.
  destruct (split line 44) as [|a [|b [|c [|d [|e [|f [|g r]]]]]]];
    cbn [List.length] in H; try lia; reflexivity.
Qed.

Lemma forEachPush_ok (lines : list jsstring) (acc : list CsvFilter.Member) :
  Forall (fun line => (7 <= List.length (split line 44))%nat) lines ->
  CsvFilter.forEachPush lines acc = Ok (acc ++ map CsvFilter.memberOf lines).
Proof.
  intros H. revert acc.
  induction H as [|line rest Hl _ IH]; intros acc; cbn [CsvFilter.forEachPush map].
  - now rewrite app_nil_r.
  - rewrite parseMember_ok by exact Hl. cbn [bind].
    rewrite IH, <- app_assoc. reflexivity.
Qed.

Lemma forEachPush_throws (lines : list jsstring) (acc : list CsvFilter.Member) :
  Exists (fun line => (List.length (split line 44) < 7)%nat) lines ->
  CsvFilter.forEachPush lines acc = Throw TypeError.
Proof.
  revert acc. induction lines as [|line rest IH]; intros acc H;
    [inversion H|].
  cbn [CsvFilter.forEachPush].
  destruct (Nat.lt_ge_cases (List.length (split line 44)) 7) as [S|L].
  - now rewrite parseMember_short.
  - rewrite parseMember_ok by exact L. cbn [bind]. apply IH.
    inversion H; subst; [lia | assumption].
Qed.

Section CsvFilterFacts.

Variable readFileSync : jsval -> result jsstring.
Variable writeFileSync : jsstring -> jsstring -> result unit.
Variable this : CsvFilter.t.

(** X14. Reading a file whose every line has at least seven comma-separated
    fields gives one member per line, in order, made of the first seven
    fields of the line, trimmed; the number of members is one more than
    the number of newlines in the file.  If some line has fewer than seven
    fields, reading throws a TypeError. *)
Theorem handelReadFile_result (content : jsstring) :
  readFileSync (CsvFilter.filePath this) = Ok content ->
  (Forall (fun line => (7 <= List.length (split line 44))%nat)
     (split content 10) ->
   CsvFilter.handelReadFile readFileSync this
   = Ok (map CsvFilter.memberOf (split content 10))
   /\ CsvFilter.totalMember readFileSync this
      = Ok (1 + Z.of_nat (count_occ Z.eq_dec content 10)))
  /\ (Exists (fun line => (List.length (split line 44) < 7)%nat)
        (split content 10) ->
      CsvFilter.handelReadFile readFileSync this = Throw TypeError).
Proof.
  intros R. unfold CsvFilter.totalMember, CsvFilter.handelReadFile.
  rewrite R. cbn [bind]. split.
  - intros H. rewrite forEachPush_ok by exact H. cbn [app bind].
    split; [reflexivity|].
    rewrite length_map, split_length. f_equal. lia.
  - apply forEachPush_throws.
Qed.

(** X15. A file that ends with a newline, and the empty file, cannot be
    read: the text after the last newline is a line of one empty field,
    and reading throws a TypeError. *)
Theorem handelReadFile_trailing_newline (content : jsstring) :
  readFileSync (CsvFilter.filePath this) = Ok content ->
  content = [] \/ (exists body, content = body ++ [10]) ->
  CsvFilter.handelReadFile readFileSync this = Throw TypeError
  /\ CsvFilter.getDataMember readFileSync this = Throw TypeError
  /\ CsvFilter.totalMember readFileSync this = Throw TypeError
  /\ CsvFilter.options readFileSync this = Throw TypeError
  /\ CsvFilter.arrMonths readFileSync this = Throw TypeError
  /\ CsvFilter.filterMemberByMonthBirthDay readFileSync this = Throw TypeError
  /\ CsvFilter.writeTxtFileFilterBirthday readFileSync writeFileSync this
     = Throw TypeError.
Proof.
  intros R E.
  assert (H : CsvFilter.handelReadFile readFileSync this = Throw TypeError).
  { unfold CsvFilter.handelReadFile. rewrite R. cbn [bind].
    apply forEachPush_throws. destruct E as [->|[body ->]].
    - constructor. cbn. lia.
    - rewrite split_snoc_separator. apply Exists_app. right.
      constructor. cbn. lia. }
  unfold CsvFilter.writeTxtFileFilterBirthday,
    CsvFilter.filterMemberByMonthBirthDay, CsvFilter.arrMonths,
    CsvFilter.options, CsvFilter.totalMember, CsvFilter.getDataMember.
  rewrite H. repeat split.
Qed.

End CsvFilterFacts.

Lemma includes_In (array : list jsval) (v : jsval) :
  includes array v = true <-> In v array.
Proof.
  unfold includes. rewrite existsb_exists. split.
  - intros (x & I & E). apply strictEq_eq in E. now subst.
  - intros I. exists v. split; [exact I | now apply strictEq_eq].
Qed.

(** The loop that collects the distinct values of a column. *)
Lemma distinct_fold {A} (g : A -> jsval) (data : list A) (acc : list jsval) :
  NoDup acc ->
  NoDup (fold_left
           (fun result x =>
              if negb (includes result (g x)) then result ++ [g x]
              else result) data acc)
  /\ (forall v,
        In v (fold_left
                (fun result x =>
                   if negb (includes result (g x)) then result ++ [g x]
                   else result) data acc)
        <-> In v acc \/ exists x, In x data /\ g x = v).
Proof.
  revert acc. induction data as [|x rest IH]; intros acc N; cbn [fold_left].
  - split; [exact N|]. intros v. split; [auto|].
    intros [I|(x & [] & _)]. exact I.
  - destruct (includes acc (g x)) eqn:E; cbn [negb].
    + apply includes_In in E. destruct (IH acc N) as [N' I']. split; [exact N'|].
      intros v. rewrite I'. split.
      * intros [I|(y & Iy & Ey)]; [now left | right; exists y; cbn; auto].
      * intros [I|(y & [->|Iy] & Ey)];
          [now left | left; now subst | right; now exists y].
    + assert (NI : ~ In (g x) acc).
      { intros I. apply includes_In in I. congruence. }
      assert (N2 : NoDup (acc ++ [g x])).
      { apply NoDup_app; repeat split; try assumption.
        - repeat constructor. intros [].
        - intros y Iy [<-|[]]. contradiction. }
      destruct (IH _ N2) as [N' I']. split; [exact N'|].
      intros v. rewrite I', in_app_iff. cbn [In]. split.
      * intros [[I|[<-|[]]]|(y & Iy & Ey)];
          [now left | right; exists x; cbn; auto
          | right; exists y; cbn; auto].
      * intros [I|(y & [->|Iy] & Ey)];
          [now left; left | left; right; left; exact Ey
          | right; now exists y].
Qed.

Section CsvFilterColumns.

Variable readFileSync : jsval -> result jsstring.
Variable this : CsvFilter.t.

(** X16. When the file can be read, the club committees and the months
    collected from it are lists without repetition, holding exactly the
    values that occur in the members (for a month, [undefined] when the
    date of birth has no "/"). *)
Theorem options_and_arrMonths_distinct (data : list CsvFilter.Member) :
  CsvFilter.handelReadFile readFileSync this = Ok data ->
  (exists opts,
      CsvFilter.options readFileSync this = Ok opts
      /\ NoDup opts
      /\ forall v,
           In v opts
           <-> exists member,
                 In member data /\ Str (CsvFilter.clubCommittee member) = v)
  /\ (exists months,
        CsvFilter.arrMonths readFileSync this = Ok months
        /\ NoDup months
        /\ forall v,
             In v months
             <-> exists member,
                   In member data /\ CsvFilter.monthOf member = v).
Proof.
  intros H. unfold CsvFilter.options, CsvFilter.arrMonths.
  rewrite H. cbn [bind]. split.
  - destruct (distinct_fold (fun m => Str (CsvFilter.clubCommittee m)) data []
                (NoDup_nil _)) as [N I].
    eexists. split; [reflexivity|]. split; [exact N|].
    intros v. rewrite (I v). cbn [In]. tauto.
  - destruct (distinct_fold CsvFilter.monthOf data [] (NoDup_nil _)) as [N I].
    eexists. split; [reflexivity|]. split; [exact N|].
    intros v. rewrite (I v). cbn [In]. tauto.
Qed.

End CsvFilterColumns.

(** *** The object built by [filterMemberByMonthBirthDay] *)

Lemma getProp_setProp_same (o : CsvFilter.object) (k : jsstring)
  (v : CsvFilter.MonthEntry) :
  CsvFilter.getProp (CsvFilter.setProp o k v) k = Some v.
Proof.
  induction o as [|[k' v'] rest IH]; cbn [CsvFilter.setProp CsvFilter.getProp].
  - now rewrite (proj2 (string_eqb_eq k k) eq_refl).
  - destruct (string_eqb k' k) eqn:E; cbn [CsvFilter.getProp]; rewrite E;
      [reflexivity | exact IH].
Qed.

Lemma getProp_setProp_other (o : CsvFilter.object) (k k' : jsstring)
  (v : CsvFilter.MonthEntry) :
  k' <> k ->
  CsvFilter.getProp (CsvFilter.setProp o k v) k' = CsvFilter.getProp o k'.
Proof.
  intros N.
  assert (F : string_eqb k k' = false).
  { destruct (string_eqb k k') eqn:E; [|reflexivity].
    apply string_eqb_eq in E. congruence. }
  induction o as [|[k0 v0] rest IH]; cbn [CsvFilter.setProp CsvFilter.getProp].
  - now rewrite F.
  - destruct (string_eqb k0 k) eqn:E; cbn [CsvFilter.getProp].
    + apply string_eqb_eq in E. subst k0. now rewrite F.
    + now rewrite IH.
Qed.

Lemma setProp_In (o : CsvFilter.object) (k k' : jsstring)
  (v v' : CsvFilter.MonthEntry) :
  In (k', v') (CsvFilter.setProp o k v) ->
  (k' = k /\ v' = v) \/ In (k', v') o.
Proof.
  induction o as [|[k0 v0] rest IH]; cbn [CsvFilter.setProp].
  - intros [E|[]]. left. now injection E as <- <-.
  - destruct (string_eqb k0 k) eqn:E.
    + apply string_eqb_eq in E. subst k0.
      intros [X|I]; [left; now injection X as <- <- | right; now right].
    + intros [X|I]; [right; now left|].
      destruct (IH I) as [L|R]; [now left | right; now right].
Qed.

Lemma setProp_keys (o : CsvFilter.object) (k : jsstring)
  (v : CsvFilter.MonthEntry) :
  map fst (CsvFilter.setProp o k v)
  = if existsb (fun k' => string_eqb k' k) (map fst o) then map fst o
    else map fst o ++ [k].
Proof.
  induction o as [|[k0 v0] rest IH];
    cbn [CsvFilter.setProp map fst existsb app]; [reflexivity|].
  destruct (string_eqb k0 k) eqn:E; cbn [orb map fst]; [reflexivity|].
  rewrite IH. now destruct (existsb _ (map fst rest)).
Qed.

Lemma setProp_NoDup (o : CsvFilter.object) (k : jsstring)
  (v : CsvFilter.MonthEntry) :
  NoDup (map fst o) -> NoDup (map fst (CsvFilter.setProp o k v)).
Proof.
  intros N. rewrite setProp_keys.
  destruct (existsb _ (map fst o)) eqn:E; [exact N|].
  apply NoDup_app; repeat split; try assumption.
  - repeat constructor. intros [].
  - intros y Iy [<-|[]].
    assert (X : existsb (fun k' => string_eqb k' k) (map fst o) = true)
      by (apply existsb_exists; exists k; split;
          [exact Iy | now apply string_eqb_eq]).
    congruence.
Qed.

Lemma getProp_In (o : CsvFilter.object) (k : jsstring)
  (v : CsvFilter.MonthEntry) :
  CsvFilter.getProp o k = Some v -> In (k, v) o.
Proof.
  induction o as [|[k0 v0] rest IH]; cbn [CsvFilter.getProp]; [discriminate|].
  destruct (string_eqb k0 k) eqn:E.
  - apply string_eqb_eq in E. subst. intros [= ->]. now left.
  - intros H. right. now apply IH.
Qed.

Lemma month_key_inj (a b : jsstring) :
  str "month_" ++ a = str "month_" ++ b -> a = b.
Proof. apply app_inv_head. Qed.

Lemma addMonth_fold_getProp (months : list jsval) (acc : CsvFilter.object)
  (k : jsstring) :
  CsvFilter.getProp (fold_left CsvFilter.addMonth months acc) k
  = if existsb (fun v => string_eqb (str "month_" ++ toStr v) k) months
    then Some (CsvFilter.mkEntry [] 0)
    else CsvFilter.getProp acc k.
Proof.
  revert acc. induction months as [|v rest IH]; intros acc;
    cbn [fold_left existsb]; [reflexivity|].
  rewrite IH. unfold CsvFilter.addMonth.
  destruct (existsb _ rest); [now rewrite orb_true_r|]. rewrite orb_false_r.
  destruct (string_eqb (str "month_" ++ toStr v) k) eqn:E.
  - apply string_eqb_eq in E. subst k. apply getProp_setProp_same.
  - apply getProp_setProp_other. intros ->.
    rewrite (proj2 (string_eqb_eq _ _) eq_refl) in E. discriminate.
Qed.

Lemma addMonth_fold_entries (months : list jsval) (acc : CsvFilter.object) :
  NoDup (map fst acc) ->
  (forall k e, In (k, e) acc ->
               e = CsvFilter.mkEntry [] 0 /\ exists m, k = str "month_" ++ m) ->
  NoDup (map fst (fold_left CsvFilter.addMonth months acc))
  /\ (forall k e,
        In (k, e) (fold_left CsvFilter.addMonth months acc) ->
        e = CsvFilter.mkEntry [] 0 /\ exists m, k = str "month_" ++ m).
Proof.
  revert acc. induction months as [|v rest IH]; intros acc N P;
    cbn [fold_left]; [now split|].
  apply IH.
  - now apply setProp_NoDup.
  - intros k e I. apply setProp_In in I. destruct I as [[-> ->]|I];
      [split; [reflexivity | now eexists] | now apply P].
Qed.

Lemma padStart_two_length (s : jsstring) :
  (2 <= List.length (padStart s 2 (str "0")))%nat.
Proof.
  unfold padStart. change (string_eqb (str "0") []) with false.
  rewrite orb_false_r.
  destruct (Z.leb_spec 2 (Z.of_nat (List.length s))); [lia|].
  change (str "0") with [48]. rewrite pad_zeros, length_app, repeat_length.
  lia.
Qed.

Lemma padStart_two_id (s : jsstring) :
  (2 <= List.length s)%nat -> padStart s 2 (str "0") = s.
Proof.
  intros H. unfold padStart.
  destruct (Z.leb_spec 2 (Z.of_nat (List.length s))); [reflexivity | lia].
Qed.

Lemma keyOf_form (member : CsvFilter.Member) :
  exists mm, CsvFilter.keyOf member = str "month_" ++ mm
             /\ (2 <= List.length mm)%nat.
Proof.
  unfold CsvFilter.keyOf. eexists. split; [reflexivity|].
  apply padStart_two_length.
Qed.

Lemma keyOf_two_chars (member : CsvFilter.Member) (m : jsstring) :
  CsvFilter.monthOf member = Str m -> (2 <= List.length m)%nat ->
  CsvFilter.keyOf member = str "month_" ++ m.
Proof.
  intros H L. unfold CsvFilter.keyOf. rewrite H.
  destruct m as [|c m]; [simpl in L; lia|].
  cbn [truthy string_eqb negb toStr]. now rewrite padStart_two_id.
Qed.

Lemma fileMember_fold_other (data : list CsvFilter.Member)
  (o : CsvFilter.object) (k : jsstring) :
  (forall member, In member data -> CsvFilter.keyOf member <> k) ->
  CsvFilter.getProp (fold_left CsvFilter.fileMember data o) k
  = CsvFilter.getProp o k.
Proof.
  revert o. induction data as [|x rest IH]; intros o H; cbn [fold_left];
    [reflexivity|].
  rewrite IH by (intros y Iy; apply H; now right).
  unfold CsvFilter.fileMember.
  destruct (CsvFilter.getProp o (CsvFilter.keyOf x)); [|reflexivity].
  apply getProp_setProp_other. intros E. apply (H x); [now left | now symmetry].
Qed.

Lemma fileMember_fold_ok (data rest : list CsvFilter.Member)
  (o : CsvFilter.object) :
  (forall x, In x rest -> In x data) ->
  CsvFilter.monthObjectOk data o ->
  CsvFilter.monthObjectOk data (fold_left CsvFilter.fileMember rest o).
Proof.
  revert o. induction rest as [|x rest IH]; intros o S J; cbn [fold_left];
    [exact J|].
  apply IH; [intros y Iy; apply S; now right|].
  unfold CsvFilter.fileMember.
  destruct (CsvFilter.getProp o (CsvFilter.keyOf x)) as [entry|] eqn:G;
    [|exact J].
  destruct J as [N P]. split; [now apply setProp_NoDup|].
  intros k e I. apply setProp_In in I. destruct I as [[-> ->]|I];
    [|now apply P].
  apply getProp_In in G. destruct (P _ _ G) as (T & F & L).
  cbn [CsvFilter.total CsvFilter.members]. repeat split.
  - rewrite length_app, T. cbn [List.length]. lia.
  - exact F.
  - intros line Il. apply in_app_iff in Il. destruct Il as [Il|[<-|[]]].
    + now apply L.
    + exists x. repeat split. apply S. now left.
Qed.

Lemma fileMember_fold_group (data : list CsvFilter.Member) :
  forall (o : CsvFilter.object) (m : jsstring) (e : CsvFilter.MonthEntry),
    (forall x, In x data ->
       exists mx, CsvFilter.monthOf x = Str mx /\ (2 <= List.length mx)%nat
                  /\ CsvFilter.getProp o (str "month_" ++ mx) <> None) ->
    CsvFilter.getProp o (str "month_" ++ m) = Some e ->
    CsvFilter.getProp (fold_left CsvFilter.fileMember data o)
      (str "month_" ++ m)
    = Some (CsvFilter.mkEntry
              (CsvFilter.members e
               ++ map CsvFilter.lineOf
                    (filter (fun x => strictEq (CsvFilter.monthOf x) (Str m))
                       data))
              (CsvFilter.total e
               + Z.of_nat
                   (List.length
                      (filter
                         (fun x => strictEq (CsvFilter.monthOf x) (Str m))
                         data)))).
Proof.
  induction data as [|x rest IH]; intros o m e H G; cbn [fold_left filter map].
  - cbn [List.length]. rewrite app_nil_r, Z.add_0_r, G. now destruct e.
  - destruct (H x (or_introl eq_refl)) as (mx & Mx & Lx & Ex).
    unfold CsvFilter.fileMember at 2.
    rewrite (keyOf_two_chars x mx Mx Lx).
    destruct (CsvFilter.getProp o (str "month_" ++ mx)) as [ex|] eqn:Gx;
      [|contradiction].
    assert (H' : forall y, In y rest ->
      exists my, CsvFilter.monthOf y = Str my /\ (2 <= List.length my)%nat
        /\ CsvFilter.getProp
             (CsvFilter.setProp o (str "month_" ++ mx)
                (CsvFilter.mkEntry
                   (CsvFilter.members ex ++ [CsvFilter.lineOf x])
                   (CsvFilter.total ex + 1)))
             (str "month_" ++ my) <> None).
    { intros y Iy. destruct (H y (or_intror Iy)) as (my & My & Ly & Ey).
      exists my. repeat split; try assumption.
      destruct (list_eq_dec Z.eq_dec my mx) as [->|N].
      - now rewrite getProp_setProp_same.
      - rewrite getProp_setProp_other; [exact Ey|].
        intros E. apply month_key_inj in E. contradiction. }
    rewrite Mx. destruct (strictEq (Str mx) (Str m)) eqn:S.
    + apply strictEq_eq in S. injection S as ->.
      rewrite G in Gx. injection Gx as <-.
      rewrite (IH _ m _ H' (getProp_setProp_same _ _ _)).
      cbn [CsvFilter.members CsvFilter.total map List.length].
      rewrite <- app_assoc. cbn [app]. do 2 f_equal. lia.
    + apply strictEq_neq in S.
      rewrite (IH _ m e H'); [reflexivity|].
      rewrite getProp_setProp_other; [exact G|].
      intros E. apply month_key_inj in E. congruence.
Qed.

Lemma writeEach_accepting
  (writeFileSync : jsstring -> jsstring -> result unit)
  (data : CsvFilter.object) (c : Z) :
  (forall path content, writeFileSync path content = Ok tt) ->
  CsvFilter.writeEach writeFileSync data c
  = Ok (c + Z.of_nat (List.length data)).
Proof.
  intros W. revert c. induction data as [|[k e] rest IH]; intros c;
    cbn [CsvFilter.writeEach List.length].
  - f_equal. lia.
  - unfold CsvFilter.writeFileHandel. rewrite W. cbn [bind].
    rewrite IH. f_equal. lia.
Qed.

Lemma filter_filter {A} (f g : A -> bool) (l : list A) :
  filter f (filter g l) = filter (fun x => g x && f x) l.
Proof.
  induction l as [|x l IH]; cbn [filter]; [reflexivity|].
  destruct (g x); cbn [andb filter]; [destruct (f x); now rewrite IH | exact IH].
Qed.

Lemma filter_all {A} (l : list A) : filter (fun _ => true) l = l.
Proof. induction l as [|x l IH]; cbn [filter]; [reflexivity | now rewrite IH]. Qed.

Lemma strictEq_refl (v : jsval) : strictEq v v = true.
Proof. now apply strictEq_eq. Qed.

Lemma includes_snoc (array : list jsval) (x v : jsval) :
  includes (array ++ [x]) v = includes array v || strictEq v x.
Proof.
  unfold includes. rewrite existsb_app. cbn [existsb]. now rewrite orb_false_r.
Qed.

(** The collecting loop appends, to what it holds, the first occurrences of
    the values it does not hold yet. *)
Lemma distinct_fold_order {A} (g : A -> jsval) (data : list A)
  (acc : list jsval) :
  fold_left
    (fun result x =>
       if negb (includes result (g x)) then result ++ [g x] else result)
    data acc
  = acc ++ filter (fun v => negb (includes acc v))
             (firstOccurrences (map g data)).
Proof.
  revert acc. induction data as [|x rest IH]; intros acc;
    cbn [fold_left map firstOccurrences filter]; [now rewrite app_nil_r|].
  destruct (includes acc (g x)) eqn:E; cbn [negb]; rewrite IH.
  - f_equal. rewrite filter_filter. apply filter_ext. intros v.
    destruct (strictEq v (g x)) eqn:S; [|reflexivity].
    apply strictEq_eq in S. subst v. now rewrite E.
  - rewrite <- app_assoc. cbn [app]. do 2 f_equal.
    rewrite filter_filter. apply filter_ext. intros v.
    rewrite includes_snoc, negb_orb. apply andb_comm.
Qed.

Lemma firstOccurrences_spec (l : list jsval) :
  NoDup (firstOccurrences l)
  /\ forall v, In v (firstOccurrences l) <-> In v l.
Proof.
  induction l as [|x t [N I]]; cbn [firstOccurrences]; [split; [constructor | tauto]|].
  split.
  - constructor; [|now apply NoDup_filter].
    intros H. apply filter_In in H. destruct H as [_ H].
    now rewrite strictEq_refl in H.
  - intros v. cbn [In]. rewrite filter_In, I. split.
    + intros [->|[H _]]; auto.
    + intros [->|H]; [now left|].
      destruct (strictEq v x) eqn:S;
        [apply strictEq_eq in S; now left | right; now split].
Qed.

Lemma getProp_Some_key (o : CsvFilter.object) (k : jsstring)
  (e : CsvFilter.MonthEntry) :
  CsvFilter.getProp o k = Some e ->
  existsb (fun k' => string_eqb k' k) (map fst o) = true.
Proof.
  induction o as [|[k0 v0] rest IH]; cbn [CsvFilter.getProp map fst existsb];
    [discriminate|].
  destruct (string_eqb k0 k); [reflexivity | exact IH].
Qed.

Lemma fileMember_fold_keys (data : list CsvFilter.Member)
  (o : CsvFilter.object) :
  map fst (fold_left CsvFilter.fileMember data o) = map fst o.
Proof.
  revert o. induction data as [|x rest IH]; intros o; cbn [fold_left];
    [reflexivity|].
  rewrite IH. unfold CsvFilter.fileMember.
  destruct (CsvFilter.getProp o (CsvFilter.keyOf x)) eqn:G; [|reflexivity].
  now rewrite setProp_keys, (getProp_Some_key _ _ _ G).
Qed.

Lemma addMonth_fold_keys (months : list jsval) (acc : CsvFilter.object) :
  NoDup (map fst acc ++ map (fun v => str "month_" ++ toStr v) months) ->
  map fst (fold_left CsvFilter.addMonth months acc)
  = map fst acc ++ map (fun v => str "month_" ++ toStr v) months.
Proof.
  revert acc. induction months as [|v rest IH]; intros acc N;
    cbn [fold_left map]; [now rewrite app_nil_r|].
  cbn [map] in N.
  assert (F : existsb (fun k' => string_eqb k' (str "month_" ++ toStr v))
                (map fst acc) = false).
  { destruct (existsb _ (map fst acc)) eqn:E; [|reflexivity].
    apply existsb_exists in E. destruct E as (k & Ik & Ek).
    apply string_eqb_eq in Ek. subst k.
    apply NoDup_remove_2 in N. exfalso. apply N, in_app_iff. now left. }
  assert (K : map fst (CsvFilter.addMonth acc v)
              = map fst acc ++ [str "month_" ++ toStr v])
    by (unfold CsvFilter.addMonth; now rewrite setProp_keys, F).
  rewrite IH; rewrite K, <- app_assoc; [reflexivity | exact N].
Qed.

Section CsvFilterMonths.

Variable readFileSync : jsval -> result jsstring.
Variable writeFileSync : jsstring -> jsstring -> result unit.
Variable this : CsvFilter.t.
Variable data : list CsvFilter.Member.
Hypothesis read : CsvFilter.handelReadFile readFileSync this = Ok data.

Lemma arrMonths_of_data :
  exists months,
    CsvFilter.arrMonths readFileSync this = Ok months
    /\ forall v, In v months
                 <-> exists member,
                       In member data /\ CsvFilter.monthOf member = v.
Proof.
  unfold CsvFilter.arrMonths. rewrite read. cbn [bind].
  destruct (distinct_fold CsvFilter.monthOf data [] (NoDup_nil _)) as [_ I].
  eexists. split; [reflexivity|].
  intros v. rewrite (I v). cbn [In]. tauto.
Qed.

Lemma filter_unfold (months : list jsval) :
  CsvFilter.arrMonths readFileSync this = Ok months ->
  CsvFilter.filterMemberByMonthBirthDay readFileSync this
  = Ok (fold_left CsvFilter.fileMember data
          (fold_left CsvFilter.addMonth months [])).
Proof.
  intros A. unfold CsvFilter.filterMemberByMonthBirthDay.
  rewrite read. cbn [bind]. now rewrite A.
Qed.

Lemma raw_key_present (months : list jsval) (member : CsvFilter.Member) :
  (forall v, In v months
             <-> exists member,
                   In member data /\ CsvFilter.monthOf member = v) ->
  In member data ->
  CsvFilter.getProp (fold_left CsvFilter.addMonth months [])
    (str "month_" ++ toStr (CsvFilter.monthOf member))
  = Some (CsvFilter.mkEntry [] 0).
Proof.
  intros I M. rewrite addMonth_fold_getProp.
  replace (existsb _ months) with true; [reflexivity|].
  symmetry. apply existsb_exists. exists (CsvFilter.monthOf member).
  split; [apply I; now exists member | now apply string_eqb_eq].
Qed.

(** X17. In the object built from a readable file, no key occurs twice,
    every key starts with "month_", every total is the number of lines
    of its entry, and every line of an entry is the line of a member of
    the file whose padded month gives that key. *)
Theorem month_entries_invariant (result : CsvFilter.object) :
  CsvFilter.filterMemberByMonthBirthDay readFileSync this = Ok result ->
  NoDup (map fst result)
  /\ forall k e,
       In (k, e) result ->
       CsvFilter.total e = Z.of_nat (List.length (CsvFilter.members e))
       /\ (exists m, k = str "month_" ++ m)
       /\ forall line,
            In line (CsvFilter.members e) ->
            exists member,
              In member data /\ line = CsvFilter.lineOf member
              /\ CsvFilter.keyOf member = k.
Proof.
  destruct arrMonths_of_data as (months & A & _).
  rewrite (filter_unfold months A). intros [= <-].
  apply (fileMember_fold_ok data data); [auto|].
  destruct (addMonth_fold_entries months [] (NoDup_nil _)) as [N P];
    [intros k e []|].
  split; [exact N|]. intros k e I. destruct (P k e I) as [-> F].
  repeat split; [exact F | intros line []].
Qed.

(** X18. When the month of every member is written with at least two
    characters, each member's month has an entry, and that entry lists, in
    file order, the lines of exactly the members of that month, with their
    number as total. *)
Theorem months_grouped (member : CsvFilter.Member) (m : jsstring) :
  (forall x, In x data ->
     exists mx, CsvFilter.monthOf x = Str mx /\ (2 <= List.length mx)%nat) ->
  In member data -> CsvFilter.monthOf member = Str m ->
  exists result,
    CsvFilter.filterMemberByMonthBirthDay readFileSync this = Ok result
    /\ CsvFilter.getProp result (str "month_" ++ m)
       = Some (CsvFilter.mkEntry
                 (map CsvFilter.lineOf
                    (filter (fun x => strictEq (CsvFilter.monthOf x) (Str m))
                       data))
                 (Z.of_nat
                    (List.length
                       (filter
                          (fun x => strictEq (CsvFilter.monthOf x) (Str m))
                          data)))).
Proof.
  intros W M Mm. destruct arrMonths_of_data as (months & A & I).
  eexists. split; [apply (filter_unfold months A)|].
  pose proof (raw_key_present months member I M) as G.
  rewrite Mm in G. cbn [toStr] in G.
  rewrite (fileMember_fold_group data _ m _) with (2 := G); [reflexivity|].
  intros x Ix. destruct (W x Ix) as (mx & Mx & Lx).
  exists mx. repeat split; try assumption.
  pose proof (raw_key_present months x I Ix) as Gx.
  rewrite Mx in Gx. cbn [toStr] in Gx. now rewrite Gx.
Qed.

(** X19. A month written with fewer than two characters (such as "3")
    gets an entry under its own key, and that entry stays empty: members
    are looked up under the month padded to two characters, which is
    another key. *)
Theorem short_month_entry_stays_empty
  (member : CsvFilter.Member) (m : jsstring) :
  In member data -> CsvFilter.monthOf member = Str m ->
  (List.length m < 2)%nat ->
  CsvFilter.keyOf member <> str "month_" ++ m
  /\ exists result,
       CsvFilter.filterMemberByMonthBirthDay readFileSync this = Ok result
       /\ CsvFilter.getProp result (str "month_" ++ m)
          = Some (CsvFilter.mkEntry [] 0).
Proof.
  intros M Mm L.
  assert (K : forall y, CsvFilter.keyOf y <> str "month_" ++ m).
  { intros y E. destruct (keyOf_form y) as (mm & F & Lm).
    rewrite F in E. apply month_key_inj in E. subst. lia. }
  split; [apply K|].
  destruct arrMonths_of_data as (months & A & I).
  eexists. split; [apply (filter_unfold months A)|].
  rewrite fileMember_fold_other by (intros y _; apply K).
  pose proof (raw_key_present months member I M) as G.
  now rewrite Mm in G.
Qed.

(** X20. When every date of birth names a month and every write succeeds:
    [#arrMonths] returns the distinct months as written in the file, in the
    order of their first occurrence; the keys of the month object are these
    months, in that order, behind "month_"; and
    [writeTxtFileFilterBirthday] returns true exactly when there are twelve
    of them. *)
Theorem writeTxtFileFilterBirthday_result :
  (forall x, In x data -> exists mx, CsvFilter.monthOf x = Str mx) ->
  (forall path content, writeFileSync path content = Ok tt) ->
  let months := firstOccurrences (map CsvFilter.monthOf data) in
  NoDup months
  /\ (forall v, In v months
                <-> exists member,
                      In member data /\ CsvFilter.monthOf member = v)
  /\ CsvFilter.arrMonths readFileSync this = Ok months
  /\ (exists result,
        CsvFilter.filterMemberByMonthBirthDay readFileSync this = Ok result
        /\ map fst result = map (fun v => str "month_" ++ toStr v) months)
  /\ CsvFilter.writeTxtFileFilterBirthday readFileSync writeFileSync this
     = Ok (Z.of_nat (List.length months) =? 12).
Proof.
  intros S W. cbv zeta.
  set (months := firstOccurrences (map CsvFilter.monthOf data)).
  destruct (firstOccurrences_spec (map CsvFilter.monthOf data)) as [N I].
  fold months in N, I.
  assert (M : forall v, In v months
                        <-> exists member,
                              In member data /\ CsvFilter.monthOf member = v).
  { intros v. rewrite I, in_map_iff. split; intros (x & X1 & X2);
      exists x; now split. }
  assert (A : CsvFilter.arrMonths readFileSync this = Ok months).
  { unfold CsvFilter.arrMonths. rewrite read. cbn [bind].
    rewrite (distinct_fold_order CsvFilter.monthOf data []).
    cbn [app includes existsb negb]. now rewrite filter_all. }
  assert (K : map fst (fold_left CsvFilter.fileMember data
                         (fold_left CsvFilter.addMonth months []))
              = map (fun v => str "month_" ++ toStr v) months).
  { rewrite fileMember_fold_keys.
    apply (addMonth_fold_keys months []). cbn [map app].
    apply NoDup_map_NoDup_ForallPairs; [|exact N].
    intros a b Ia Ib E. apply M in Ia, Ib.
    destruct Ia as (xa & Xa & <-), Ib as (xb & Xb & <-).
    destruct (S xa Xa) as (ma & Ea), (S xb Xb) as (mb & Eb).
    rewrite Ea, Eb in *. cbn [toStr] in E. apply month_key_inj in E.
    now subst. }
  split; [exact N|]. split; [exact M|]. split; [exact A|].
  split.
  - eexists. split; [apply (filter_unfold months A) | exact K].
  - unfold CsvFilter.writeTxtFileFilterBirthday.
    rewrite (filter_unfold months A). cbn [bind].
    rewrite writeEach_accepting by exact W. cbn [bind].
    rewrite <- (length_map fst), K, length_map. reflexivity.
Qed.

End CsvFilterMonths.

(** *** The theorems on the sample files *)

Lemma sample_read :
  CsvFilter.handelReadFile (holding sampleCsv) sampleThis = Ok sampleMembers.
Proof. vm_compute. reflexivity. Qed.

Lemma sample_read_short_month :
  CsvFilter.handelReadFile (holding sampleCsvShortMonth) sampleThis
  = Ok sampleMembersShortMonth.
Proof. vm_compute. reflexivity. Qed.

Lemma sample_object :
  CsvFilter.filterMemberByMonthBirthDay (holding sampleCsv) sampleThis
  = Ok sampleObject.
Proof. vm_compute. reflexivity. Qed.

Lemma handelReadFile_result_witness :
  holding sampleCsv (CsvFilter.filePath sampleThis) = Ok sampleCsv
  /\ Forall (fun line => (7 <= List.length (split line 44))%nat)
       (split sampleCsv 10)
  /\ CsvFilter.handelReadFile (holding sampleCsv) sampleThis
     = Ok (map CsvFilter.memberOf (split sampleCsv 10))
  /\ CsvFilter.totalMember (holding sampleCsv) sampleThis = Ok 2.
Proof.
  assert (F : Forall (fun line => (7 <= List.length (split line 44))%nat)
                (split sampleCsv 10))
    by (vm_compute; repeat constructor).
  split; [reflexivity|]. split; [exact F|].
  exact (proj1 (handelReadFile_result (holding sampleCsv) sampleThis
                  sampleCsv eq_refl) F).
Defined.

Lemma handelReadFile_trailing_newline_witness :
  holding (sampleCsv ++ [10]) (CsvFilter.filePath sampleThis)
  = Ok (sampleCsv ++ [10])
  /\ CsvFilter.handelReadFile (holding (sampleCsv ++ [10])) sampleThis
     = Throw TypeError.
Proof.
  split; [reflexivity|].
  apply (handelReadFile_trailing_newline (holding (sampleCsv ++ [10]))
           acceptingWrites sampleThis (sampleCsv ++ [10]) eq_refl).
  right. now exists sampleCsv.
Defined.

Lemma options_and_arrMonths_distinct_witness :
  CsvFilter.handelReadFile (holding sampleCsv) sampleThis = Ok sampleMembers
  /\ exists opts,
       CsvFilter.options (holding sampleCsv) sampleThis = Ok opts
       /\ NoDup opts.
Proof.
  assert (R : CsvFilter.handelReadFile (holding sampleCsv) sampleThis
              = Ok sampleMembers) by (vm_compute; reflexivity).
  split; [exact R|].
  destruct (options_and_arrMonths_distinct (holding sampleCsv) sampleThis
              sampleMembers R) as [(opts & O & N & _) _].
  exists opts. now split.
Defined.

Lemma month_entries_invariant_witness :
  CsvFilter.handelReadFile (holding sampleCsv) sampleThis = Ok sampleMembers
  /\ CsvFilter.filterMemberByMonthBirthDay (holding sampleCsv) sampleThis
     = Ok sampleObject
  /\ NoDup (map fst sampleObject).
Proof.
  assert (R : CsvFilter.handelReadFile (holding sampleCsv) sampleThis
              = Ok sampleMembers) by (vm_compute; reflexivity).
  assert (F : CsvFilter.filterMemberByMonthBirthDay (holding sampleCsv)
                sampleThis = Ok sampleObject) by (vm_compute; reflexivity).
  split; [exact R|]. split; [exact F|].
  exact (proj1 (month_entries_invariant (holding sampleCsv) sampleThis
                  sampleMembers R sampleObject F)).
Defined.

Lemma months_grouped_witness :
  CsvFilter.handelReadFile (holding sampleCsv) sampleThis = Ok sampleMembers
  /\ exists result,
       CsvFilter.filterMemberByMonthBirthDay (holding sampleCsv) sampleThis
       = Ok result
       /\ CsvFilter.getProp result (str "month_02")
          = Some (CsvFilter.mkEntry
                    [str "Nguyen An - 01/02/2000 - Media - Lead"] 1).
Proof.
  assert (R : CsvFilter.handelReadFile (holding sampleCsv) sampleThis
              = Ok sampleMembers) by (vm_compute; reflexivity).
  split; [exact R|].
  refine (months_grouped (holding sampleCsv) sampleThis sampleMembers R
            (nth 0 sampleMembers (CsvFilter.mkMember [] [] [] [] [] [] []))
            (str "02") _ _ _).
  - intros x [<-|[<-|[]]];
      [exists (str "02") | exists (str "11")]; split;
      (reflexivity || (simpl; lia)).
  - now left.
  - reflexivity.
Defined.

Lemma short_month_entry_stays_empty_witness :
  CsvFilter.handelReadFile (holding sampleCsvShortMonth) sampleThis
  = Ok sampleMembersShortMonth
  /\ exists result,
       CsvFilter.filterMemberByMonthBirthDay (holding sampleCsvShortMonth)
         sampleThis = Ok result
       /\ CsvFilter.getProp result (str "month_3")
          = Some (CsvFilter.mkEntry [] 0).
Proof.
  assert (R : CsvFilter.handelReadFile (holding sampleCsvShortMonth)
                sampleThis = Ok sampleMembersShortMonth)
    by (vm_compute; reflexivity).
  split; [exact R|].
  refine (proj2 (short_month_entry_stays_empty (holding sampleCsvShortMonth)
                   sampleThis sampleMembersShortMonth R
                   (CsvFilter.mkMember (str "3") (str "Le Chi") (str "0903")
                      (str "7/3/1999") (str "Da Nang") (str "Media")
                      (str "Member"))
                   (str "3") _ _ _)).
  - right. right. now left.
  - reflexivity.
  - simpl. lia.
Defined.

Lemma writeTxtFileFilterBirthday_result_witness :
  CsvFilter.handelReadFile (holding sampleCsvShortMonth) sampleThis
  = Ok sampleMembersShortMonth
  /\ CsvFilter.arrMonths (holding sampleCsvShortMonth) sampleThis
     = Ok [Str (str "02"); Str (str "11"); Str (str "3")]
  /\ (exists result,
        CsvFilter.filterMemberByMonthBirthDay (holding sampleCsvShortMonth)
          sampleThis = Ok result
        /\ map fst result = [str "month_02"; str "month_11"; str "month_3"])
  /\ CsvFilter.writeTxtFileFilterBirthday (holding sampleCsvShortMonth)
       acceptingWrites sampleThis = Ok false.
Proof.
  assert (R : CsvFilter.handelReadFile (holding sampleCsvShortMonth)
                sampleThis = Ok sampleMembersShortMonth)
    by (vm_compute; reflexivity).
  split; [exact R|].
  refine (proj2 (proj2 (writeTxtFileFilterBirthday_result
            (holding sampleCsvShortMonth) acceptingWrites sampleThis
            sampleMembersShortMonth R _ _))).
  - intros x [<-|[<-|[<-|[]]]]; eexists; reflexivity.
  - reflexivity.
Defined.
